(** * homebrew_recipe_scraper: a shallow embedding and its properties

    The scraper is a linear pipeline: [fetch_url] (bounded retry),
    [extract_recipe] (marker based field extraction), [find_next_page]
    (three ordered heuristics) and [scrape_recipes] (the pagination loop).

    The libraries the program calls are modelled as follows.
    - bs4: a parsed document is a tree of [node]s; [find], [find_all],
      [get_text(strip=True)] and [stripped_strings] are functions on it.
    - requests: a session is a transition system [session_get] on an
      abstract network state; a transport error or an HTTP error status
      (what [raise_for_status] turns into [RequestException]) is [None].
    - urllib: [urljoin] is a parameter of the development.
    - logging and time.sleep: events appended to a trace. *)

From Stdlib Require Import String Ascii List Bool Arith Lia.
Import ListNotations.
Open Scope string_scope.
Open Scope list_scope.
Open Scope nat_scope.

Set Implicit Arguments.
Set Warnings "-register-all".

(** ** Python strings *)

Module PyStr.

(** [str.isspace] on the ASCII range: TAB..CR, FS..US and SPACE. *)
Definition is_space (c : ascii) : bool :=
  let n := nat_of_ascii c in
  ((9 <=? n) && (n <=? 13)) || ((28 <=? n) && (n <=? 32)).

Fixpoint lstrip (s : string) : string :=
  match s with
  | EmptyString => EmptyString
  | String c r => if is_space c then lstrip r else s
  end.

Fixpoint rstrip (s : string) : string :=
  match s with
  | EmptyString => EmptyString
  | String c r =>
      match rstrip r with
      | EmptyString => if is_space c then EmptyString else String c EmptyString
      | r' => String c r'
      end
  end.

(** [s.strip()] *)
Definition strip (s : string) : string := rstrip (lstrip s).

Definition lower_char (c : ascii) : ascii :=
  let n := nat_of_ascii c in
  if (65 <=? n) && (n <=? 90) then ascii_of_nat (n + 32) else c.

(** [s.lower()] on ASCII text *)
Fixpoint lower (s : string) : string :=
  match s with
  | EmptyString => EmptyString
  | String c r => String (lower_char c) (lower r)
  end.

(** Truth value of a string: the empty string is falsy. *)
Definition truthy (s : string) : bool :=
  match s with EmptyString => false | _ => true end.

(** [all_space s]: [s] is empty or consists of whitespace only. *)
Fixpoint all_space (s : string) : bool :=
  match s with
  | EmptyString => true
  | String c r => is_space c && all_space r
  end.

(** The maximal runs of non-whitespace characters of [s], in order: the
    way bs4 splits the value of a multi-valued attribute ([class], [rel]). *)
Fixpoint tokens_aux (cur : string) (s : string) : list string :=
  match s with
  | EmptyString => if truthy cur then [cur] else []
  | String c r =>
      if is_space c
      then (if truthy cur then cur :: tokens_aux EmptyString r
            else tokens_aux EmptyString r)
      else tokens_aux (String.append cur (String c EmptyString)) r
  end.

Definition tokens (s : string) : list string := tokens_aux EmptyString s.

(** ["".join(l)] *)
Definition join (l : list string) : string :=
  fold_right String.append EmptyString l.

End PyStr.

(** ** The document tree of bs4 *)

(** A [Tag] has a name, its attributes as written in the markup, and its
    children in document order.  [NavigableString] is a text node; [Comment]
    stands for the string classes that [get_text] and [stripped_strings]
    leave out (comments, declarations, processing instructions). *)
Inductive node : Type :=
| Tag (name : string) (attrs : list (string * string)) (children : list node)
| NavigableString (text : string)
| Comment (text : string).

Module Bs4.

Import PyStr.

(** [tag.get(key)]: the value of attribute [key], if present.  The parser
    keeps the last of several attributes with one name; the markup of this
    model lists each attribute once. *)
Fixpoint get (attrs : list (string * string)) (key : string) : option string :=
  match attrs with
  | [] => None
  | (k, v) :: rest => if String.eqb k key then Some v else get rest key
  end.

(** [tag.descendants]: every node below [n], in document order. *)
Fixpoint descendants (n : node) : list node :=
  match n with
  | Tag _ _ cs =>
      (fix go (l : list node) : list node :=
         match l with
         | [] => []
         | c :: l' => c :: descendants c ++ go l'
         end) cs
  | _ => []
  end.

(** A keyword filter such as [class_="recipe-post"] or [rel="next"] on a
    multi-valued attribute holds when one of the attribute's tokens is the
    value. *)
Definition has_token (attrs : list (string * string)) (key value : string) : bool :=
  match get attrs key with
  | Some v => existsb (String.eqb value) (tokens v)
  | None => false
  end.

(** The filter of [find(name, key=value)] / [find_all(name, key=value)]. *)
Definition matches (name key value : string) (n : node) : bool :=
  match n with
  | Tag nm attrs _ => String.eqb nm name && has_token attrs key value
  | _ => false
  end.

(** The filter of [find_all(name)]. *)
Definition is_tag (name : string) (n : node) : bool :=
  match n with
  | Tag nm _ _ => String.eqb nm name
  | _ => false
  end.

(** [n.find_all(name, key=value)] *)
Definition find_all_by (n : node) (name key value : string) : list node :=
  filter (matches name key value) (descendants n).

(** [n.find(name, key=value)]: the first match in document order. *)
Definition find_by (n : node) (name key value : string) : option node :=
  List.find (matches name key value) (descendants n).

(** [n.find_all(name)] *)
Definition find_all (n : node) (name : string) : list node :=
  filter (is_tag name) (descendants n).

(** The text nodes below [n], in document order. *)
Definition strings (n : node) : list string :=
  flat_map (fun d => match d with NavigableString s => [s] | _ => [] end)
           (descendants n).

(** [list(n.stripped_strings)]: every text fragment stripped, the ones that
    are empty after stripping dropped. *)
Definition stripped_strings (n : node) : list string :=
  filter truthy (map strip (strings n)).

(** [n.get_text(strip=True)]: the stripped fragments joined with the empty
    separator. *)
Definition get_text_strip (n : node) : string := join (stripped_strings n).

(** [n.get(key)] on a node; [None] for a missing attribute. *)
Definition node_get (n : node) (key : string) : option string :=
  match n with
  | Tag _ attrs _ => get attrs key
  | _ => None
  end.

End Bs4.

(** ** Exceptions, log records and observable events *)

(** A raised instance of a subclass of Python's [Exception], with its text. *)
Inductive exn : Type := Exception (msg : string).

(** A computation that returns or raises. *)
Inductive result (A : Type) : Type :=
| Ret (a : A)
| Raise (e : exn).
Arguments Ret {A} a.
Arguments Raise {A} e.

Definition bind {A B : Type} (m : result A) (k : A -> result B) : result B :=
  match m with
  | Ret a => k a
  | Raise e => Raise e
  end.

Notation "x <- m ;; k" := (bind m (fun x => k))
  (at level 61, m at next level, right associativity).

Inductive level : Type := DEBUG | INFO | WARNING | ERROR.

(** One constructor per [logging] call of the program. *)
Inductive log_msg : Type :=
| LogFetching (attempt : nat) (url : string)      (* debug, fetch_url *)
| LogAttemptFailed (attempt : nat)                (* warning, fetch_url *)
| LogRetrying (delay : nat)                       (* info, fetch_url *)
| LogFetchFailed (url : string) (retries : nat)   (* error, fetch_url *)
| LogMissingFields                                (* debug, extract_recipe *)
| LogParseError (e : exn)                         (* error, extract_recipe *)
| LogScrapingPage (url : string)                  (* info, scrape_recipes *)
| LogFoundPosts (n : nat).                        (* info, scrape_recipes *)

Definition level_of (m : log_msg) : level :=
  match m with
  | LogFetching _ _ => DEBUG
  | LogAttemptFailed _ => WARNING
  | LogRetrying _ => INFO
  | LogFetchFailed _ _ => ERROR
  | LogMissingFields => DEBUG
  | LogParseError _ => ERROR
  | LogScrapingPage _ => INFO
  | LogFoundPosts _ => INFO
  end.

(** What a run does to the outside world, in order. *)
Inductive event : Type :=
| EvGet (url : string)        (* session.get(url, timeout=REQUEST_TIMEOUT) *)
| EvSleep (seconds : nat)     (* time.sleep(seconds) *)
| EvLog (m : log_msg).

Definition is_get (e : event) : bool :=
  match e with EvGet _ => true | _ => false end.

Definition is_sleep (e : event) : bool :=
  match e with EvSleep _ => true | _ => false end.

(** The network traffic and the pauses of a trace, the log records left out. *)
Definition io_events (tr : list event) : list event :=
  filter (fun e => is_get e || is_sleep e) tr.

(** ** The recipe record *)

Record recipe : Type := mkRecipe {
  title : string;
  author : string;
  date : string;
  ingredients : list string;
  instructions : list string
}.

(** ** extract_recipe *)

(** The operations [extract_recipe] performs on a post.  Each may raise: the
    function wraps all of them in one [try]. *)
Class TagOps (T : Type) : Type := {
  (** [t.find(name, class_=cls)] *)
  find : T -> string -> string -> result (option T);
  (** [t.get_text(strip=True)] *)
  get_text : T -> result string;
  (** [list(t.stripped_strings)] *)
  stripped_strings : T -> result (list string)
}.

(** [out = []; for line in lines: out.append(line)] *)
Definition append_all (lines : list string) : list string :=
  fold_left (fun out line => out ++ [line]) lines [].

Section ExtractRecipe.

Context {T : Type} {ops : TagOps T}.

(** The body of the [try] block.  A tag found by [find] is truthy whatever
    its contents ([Tag.__bool__] is constantly true), so the test of line 68
    fails exactly when one of the five lookups returned [None]. *)
Definition extract_recipe_try (post : T) : result (option recipe * list log_msg) :=
  title_tag <- find post "div" "recipe-title" ;;
  author_tag <- find post "div" "recipe-author" ;;
  date_tag <- find post "div" "recipe-date" ;;
  ingr_tag <- find post "div" "recipe-ingredients" ;;
  instr_tag <- find post "div" "recipe-instructions" ;;
  match title_tag, author_tag, date_tag, ingr_tag, instr_tag with
  | Some title_tag, Some author_tag, Some date_tag, Some ingr_tag, Some instr_tag =>
      title <- get_text title_tag ;;
      author <- get_text author_tag ;;
      date <- get_text date_tag ;;
      ingr_lines <- stripped_strings ingr_tag ;;
      let ingredients := append_all ingr_lines in
      instr_lines <- stripped_strings instr_tag ;;
      let instructions := append_all instr_lines in
      Ret (Some (mkRecipe title author date ingredients instructions), [])
  | _, _, _, _, _ => Ret (None, [LogMissingFields])
  end.

(** [extract_recipe(post)]: the record or [None], and the log records
    written on the way. *)
Definition extract_recipe (post : T) : option recipe * list log_msg :=
  match extract_recipe_try post with
  | Ret r => r
  | Raise e => (None, [LogParseError e])
  end.

(** Lines 151-154 of [scrape_recipes]: the loop over the posts of a page. *)
Definition process_post (st : list recipe * list log_msg) (post : T)
  : list recipe * list log_msg :=
  let '(all_recipes, logs) := st in
  let '(recipe, l) := extract_recipe post in
  match recipe with
  | Some r => (all_recipes ++ [r], logs ++ l)
  | None => (all_recipes, logs ++ l)
  end.

Definition process_posts (recipe_posts : list T) (all_recipes : list recipe)
  : list recipe * list log_msg :=
  fold_left process_post recipe_posts (all_recipes, []).

(** The records a list of posts contributes, in order. *)
Definition extracted (posts : list T) : list recipe :=
  flat_map (fun post => match fst (extract_recipe post) with
                        | Some r => [r]
                        | None => []
                        end) posts.

End ExtractRecipe.

(** The class markers of the five required fields. *)
Definition MARKERS : list string :=
  ["recipe-title"; "recipe-author"; "recipe-date";
   "recipe-ingredients"; "recipe-instructions"].

(** The operations of bs4 on the document tree: none of them raises. *)
#[export] Instance bs4_ops : TagOps node := {
  find := fun t name cls => Ret (Bs4.find_by t name "class" cls);
  get_text := fun t => Ret (Bs4.get_text_strip t);
  stripped_strings := fun t => Ret (Bs4.stripped_strings t)
}.

(** ** Constants *)

Definition REQUEST_TIMEOUT : nat := 10.
Definition RETRY_DELAY : nat := 3.
Definition MAX_RETRIES : nat := 3.

(** ** URLs *)

Module Url.

Import PyStr.

Definition is_alpha (c : ascii) : bool :=
  let n := nat_of_ascii c in
  ((65 <=? n) && (n <=? 90)) || ((97 <=? n) && (n <=? 122)).

Definition is_scheme_char (c : ascii) : bool :=
  let n := nat_of_ascii c in
  is_alpha c || ((48 <=? n) && (n <=? 57))
  || (n =? 43) || (n =? 45) || (n =? 46).

Fixpoint scheme_rest (s : string) : bool :=
  match s with
  | EmptyString => false
  | String c r =>
      if Ascii.eqb c ":" then true
      else if is_scheme_char c then scheme_rest r else false
  end.

(** An absolute URL starts with a scheme: a letter, then letters, digits,
    [+], [-] or [.], then a colon. *)
Definition is_absolute (u : string) : bool :=
  match u with
  | EmptyString => false
  | String c r => is_alpha c && scheme_rest r
  end.

(** The URLs [requests] has a transport adapter for. *)
Definition is_http (u : string) : bool :=
  String.prefix "http://" (lower u) || String.prefix "https://" (lower u).

Fixpoint has_slash (s : string) : bool :=
  match s with
  | EmptyString => false
  | String c r => Ascii.eqb c "/" || has_slash r
  end.

(** [s] up to and including its last [/]. *)
Fixpoint dirname (s : string) : string :=
  match s with
  | EmptyString => EmptyString
  | String c r => if has_slash s then String c (dirname r) else EmptyString
  end.

(** A resolver for the concrete runs further down: a reference with a
    scheme is taken as it is, any other one replaces the last path segment
    of the base.  On such inputs it agrees with [urllib.parse.urljoin]. *)
Definition urljoin_ref (base url : string) : string :=
  if is_absolute url then url else String.append (dirname base) url.

End Url.

(** ** fetch_url, find_next_page and scrape_recipes *)

Section Scraper.

(** The state of the network and of the session talking to it. *)
Variable Net : Type.
(** A successful response. *)
Variable Response : Type.
(** [session.get(url, timeout=REQUEST_TIMEOUT)] followed by
    [resp.raise_for_status()]: [None] when either raises a
    [RequestException]. *)
Variable session_get : Net -> string -> option Response * Net.
(** [BeautifulSoup(response.content, "html.parser")] *)
Variable BeautifulSoup : Response -> node.
(** [urllib.parse.urljoin] *)
Variable urljoin : string -> string -> string.
(** The bs4 operations that [extract_recipe] calls on a post. *)
Context {ops : TagOps node}.

(** The [for attempt in range(1, MAX_RETRIES + 1)] loop of [fetch_url], on
    the attempts still to make. *)
Fixpoint fetch_attempts (attempts : list nat) (net : Net) (url : string)
  : option Response * Net * list event :=
  match attempts with
  | [] => (None, net, [])
  | attempt :: rest =>
      let pre := [EvLog (LogFetching attempt url); EvGet url] in
      match session_get net url with
      | (Some resp, net') => (Some resp, net', pre)
      | (None, net') =>
          if attempt <? MAX_RETRIES then
            let '(r, net'', tr) := fetch_attempts rest net' url in
            (r, net'',
             pre ++ [EvLog (LogAttemptFailed attempt);
                     EvLog (LogRetrying RETRY_DELAY);
                     EvSleep RETRY_DELAY] ++ tr)
          else
            (None, net',
             pre ++ [EvLog (LogAttemptFailed attempt);
                     EvLog (LogFetchFailed url MAX_RETRIES)])
      end
  end.

Definition fetch_url (net : Net) (url : string)
  : option Response * Net * list event :=
  fetch_attempts (seq 1 MAX_RETRIES) net url.

(** The results of [n] successive [session.get] calls for [url]. *)
Fixpoint get_outcomes (n : nat) (net : Net) (url : string)
  : list (option Response) :=
  match n with
  | 0 => []
  | S k => let '(r, net') := session_get net url in
           r :: get_outcomes k net' url
  end.

(** [link.get("href")] when it is truthy. *)
Definition href_of (link : node) : option string :=
  match Bs4.node_get link "href" with
  | Some href => if PyStr.truthy href then Some href else None
  | None => None
  end.

(** [link] has a truthy target. *)
Definition has_href (link : node) : bool :=
  match href_of link with Some _ => true | None => false end.

(** [text in ("next", "more")] *)
Definition next_or_more (text : string) : bool :=
  String.eqb text "next" || String.eqb text "more".

(** The [for a in soup.find_all("a")] loop of [find_next_page]. *)
Fixpoint next_by_text (links : list node) (base_url : string) : option string :=
  match links with
  | [] => None
  | a :: rest =>
      if next_or_more (PyStr.lower (Bs4.get_text_strip a)) then
        match href_of a with
        | Some href => Some (urljoin base_url href)
        | None => next_by_text rest base_url
        end
      else next_by_text rest base_url
  end.

(** [link and link.get("href")]: the target of the link that [find]
    returned, when there is a link and its target is truthy. *)
Definition link_href (link : option node) : option string :=
  match link with
  | Some link => href_of link
  | None => None
  end.

Definition find_next_page (soup : node) (base_url : string) : option string :=
  let link := Bs4.find_by soup "a" "rel" "next" in
  match link_href link with
  | Some href => Some (urljoin base_url href)
  | None =>
      let next_btn := Bs4.find_by soup "a" "class" "next-page" in
      match link_href next_btn with
      | Some href => Some (urljoin base_url href)
      | None => next_by_text (Bs4.find_all soup "a") base_url
      end
  end.

(** Where the loop goes after a page: lines 157-163. *)
Definition next_url (soup : node) (url : string) : option string :=
  match find_next_page soup url with
  | Some next =>
      if PyStr.truthy next && negb (String.eqb next url) then Some next else None
  | None => None
  end.

(** The variables of [scrape_recipes], the network and the trace so far. *)
Record state : Type := mkState {
  current_url : option string;
  all_recipes : list recipe;
  network : Net;
  trace : list event
}.

Inductive control : Type :=
| Running (st : state)
| Done (st : state).

Definition state_of (c : control) : state :=
  match c with Running st => st | Done st => st end.

(** Truth value of [current_url] and of [next_page]: [None] and the empty
    string are falsy. *)
Definition url_truthy (u : option string) : bool :=
  match u with
  | Some s => PyStr.truthy s
  | None => false
  end.

(** One evaluation of the [while current_url:] test and, when it holds, of
    the loop body.  [Done] is leaving the loop, by the test or by [break]. *)
Definition step (st : state) : control :=
  match current_url st with
  | Some url =>
      if PyStr.truthy url then
        let '(response, net, ftr) := fetch_url (network st) url in
        let tr := trace st ++ [EvLog (LogScrapingPage url)] ++ ftr in
        match response with
        | None => Done (mkState (Some url) (all_recipes st) net tr)
        | Some response =>
            let soup := BeautifulSoup response in
            let recipe_posts := Bs4.find_all_by soup "div" "class" "recipe-post" in
            let '(recipes, logs) := process_posts recipe_posts (all_recipes st) in
            let tr := tr ++ [EvLog (LogFoundPosts (length recipe_posts))]
                         ++ map EvLog logs in
            let next_page := find_next_page soup url in
            match next_page with
            | Some next =>
                if PyStr.truthy next && negb (String.eqb next url) then
                  Running (mkState (Some next) recipes net (tr ++ [EvSleep 1]))
                else Running (mkState None recipes net tr)
            | None => Running (mkState None recipes net tr)
            end
        end
      else Done st
  | None => Done st
  end.

(** At most [n] evaluations of the loop test. *)
Fixpoint run (n : nat) (st : state) : control :=
  match n with
  | 0 => Running st
  | S k =>
      match step st with
      | Running st' => run k st'
      | Done st' => Done st'
      end
  end.

Definition init (net : Net) (start_url : string) : state :=
  mkState (Some start_url) [] net [].

(** [scrape_recipes(start_url)]: [None] while the loop has not ended within
    [fuel] evaluations of its test. *)
Definition scrape_recipes (fuel : nat) (net : Net) (start_url : string)
  : option (list recipe) :=
  match run fuel (init net start_url) with
  | Done st => Some (all_recipes st)
  | Running _ => None
  end.

(** The arguments of the calls of [fetch_url] in a trace, in order: line 140
    logs each one right before the call. *)
Definition fetch_calls (tr : list event) : list string :=
  flat_map (fun e => match e with
                     | EvLog (LogScrapingPage u) => [u]
                     | _ => []
                     end) tr.

End Scraper.

(** ** The wording of the specification, for comparison *)

Module Spec.

(** "Trimmed plain text": the whole text of the marker, stripped at both
    ends. *)
Definition trimmed_plain_text (n : node) : string :=
  PyStr.strip (PyStr.join (Bs4.strings n)).

(** "A link element carrying a [key] marker with a resolvable target": the
    first link in document order that has both. *)
Definition marked_link_target (soup : node) (key value : string) : option string :=
  match List.find (fun a => Bs4.matches "a" key value a && has_href a)
                  (Bs4.descendants soup) with
  | Some a => href_of a
  | None => None
  end.

(** "Any link whose text, compared case-insensitively, is next or more,
    with a resolvable target": the first such link in document order, the
    text of a link being what [get_text(strip=True)] returns. *)
Definition text_link_target (soup : node) : option string :=
  match List.find (fun a => Bs4.is_tag "a" a
                            && next_or_more (PyStr.lower (Bs4.get_text_strip a))
                            && has_href a)
                  (Bs4.descendants soup) with
  | Some a => href_of a
  | None => None
  end.

(** The network traffic and the pauses of a call of the fetcher that makes
    [k] attempts: a pause of [RETRY_DELAY] before every attempt but the
    first. *)
Definition retry_schedule (k : nat) (url : string) : list event :=
  EvGet url :: flat_map (fun _ => [EvSleep RETRY_DELAY; EvGet url]) (seq 1 (k - 1)).

End Spec.

(** The three heuristics of [find_next_page], in order, as one target. *)
Definition next_target (soup : node) : option string :=
  match link_href (Bs4.find_by soup "a" "rel" "next") with
  | Some href => Some href
  | None =>
      match link_href (Bs4.find_by soup "a" "class" "next-page") with
      | Some href => Some href
      | None => Spec.text_link_target soup
      end
  end.

(** ** Concrete documents and networks *)

Module Examples.

Definition base : string := "http://brew.example/list".

Definition div (cls : string) (children : list node) : node :=
  Tag "div" [("class", cls)] children.

Definition text_div (cls text : string) : node :=
  div cls [NavigableString text].

(** A post with every marker, the list blocks holding two lines each, one
    blank fragment and one comment. *)
Definition post_ipa : node :=
  div "recipe-post featured"
    [ text_div "recipe-title" "  West Coast IPA ";
      text_div "recipe-author" "hophead";
      text_div "recipe-date" "2021-05-01";
      div "recipe-ingredients"
        [ NavigableString " 5 kg pale malt "; Tag "br" [] [];
          NavigableString "   "; Comment "hops";
          Tag "span" [] [NavigableString "60 g Simcoe"] ];
      div "recipe-instructions"
        [ NavigableString "Mash at 66C"; Tag "br" [] [];
          NavigableString "Boil 60 min" ] ].

(** A post without a date marker. *)
Definition post_no_date : node :=
  div "recipe-post"
    [ text_div "recipe-title" "Stout";
      text_div "recipe-author" "anon";
      text_div "recipe-ingredients" "malt";
      text_div "recipe-instructions" "brew" ].

(** A post whose five markers are present and blank. *)
Definition post_blank : node :=
  div "recipe-post"
    [ div "recipe-title" [];
      text_div "recipe-author" "   ";
      div "recipe-date" [Comment "tbd"];
      div "recipe-ingredients" [NavigableString " "; Tag "br" [] []];
      div "recipe-instructions" [] ].

(** The title marker of [post_markup]: two text fragments. *)
Definition title_markup : node :=
  div "recipe-title" [NavigableString "Pale "; Tag "b" [] [NavigableString "Ale"]].

Definition post_markup : node :=
  div "recipe-post"
    [ title_markup;
      text_div "recipe-author" "anon";
      text_div "recipe-date" "today";
      text_div "recipe-ingredients" "malt";
      text_div "recipe-instructions" "brew" ].

Definition a_rel (rel href : string) : node :=
  Tag "a" [("rel", rel); ("href", href)] [NavigableString "2"].

Definition a_class (cls href : string) : node :=
  Tag "a" [("class", cls); ("href", href)] [NavigableString ">"].

Definition document (children : list node) : node :=
  Tag "[document]" [] children.

(** Both markers, on different targets. *)
Definition page_both : node :=
  document [ post_ipa; a_class "btn next-page" "/list?page=9"; a_rel "next" "page2.html" ].

(** A first [rel="next"] link without a target, a second one with a target,
    and a [next-page] link. *)
Definition page_two_rel : node :=
  document [ Tag "a" [("rel", "next")] [NavigableString "2"];
             a_rel "next" "page2.html";
             a_class "next-page" "page3.html" ].

(** A page whose next link points at the page itself. *)
Definition page_self : node :=
  document [ post_ipa; a_rel "next" "http://brew.example/list" ].

(** The first page of a listing: two posts, one of them incomplete, and a
    link to the second page. *)
Definition page_one : node :=
  document [ post_ipa; post_no_date; a_rel "next" "page2.html" ].

(** The last page: one post and no link. *)
Definition page_last : node :=
  document [ post_markup ].

(** An endpoint that fails [fails] times and then answers with [page]. *)
Definition flaky (fails : nat) (page : node) (n : nat) (url : string)
  : option node * nat :=
  (if n <? fails then None else Some page, S n).

(** An endpoint that never answers. *)
Definition down (n : nat) (url : string) : option node * nat := (None, S n).

(** A site that serves [page_one] once and then goes down; nothing but
    [http] URLs is answered. *)
Definition one_then_down (n : nat) (url : string) : option node * nat :=
  (if Url.is_http url && (n =? 0) then Some page_one else None, S n).

(** A site of two pages. *)
Definition two_pages (n : nat) (url : string) : option node * nat :=
  (if String.eqb url "http://brew.example/list" then Some page_one
   else if String.eqb url "http://brew.example/page2.html" then Some page_last
   else None, S n).

(** A site whose only page links to itself. *)
Definition self_site (n : nat) (url : string) : option node * nat :=
  (if Url.is_http url then Some page_self else None, S n).

(** bs4 with a [get_text] that raises on the text ["Stout"]. *)
Definition faulty_ops : TagOps node := {|
  find := fun t name cls => Ret (Bs4.find_by t name "class" cls);
  get_text := fun t =>
    if String.eqb (Bs4.get_text_strip t) "Stout"
    then Raise (Exception "boom") else Ret (Bs4.get_text_strip t);
  stripped_strings := fun t => Ret (Bs4.stripped_strings t)
|}.

(** A post on which [faulty_ops] raises. *)
Definition post_stout : node :=
  div "recipe-post"
    [ text_div "recipe-title" "Stout";
      text_div "recipe-author" "anon";
      text_div "recipe-date" "today";
      text_div "recipe-ingredients" "malt";
      text_div "recipe-instructions" "brew" ].

End Examples.


(** ** Observations on a trace *)

(** The pause of line 161, between two pages; the pauses of [fetch_url]
    last [RETRY_DELAY] seconds. *)
Definition is_courtesy (e : event) : bool :=
  match e with EvSleep 1 => true | _ => false end.

Definition level_eqb (a b : level) : bool :=
  match a, b with
  | DEBUG, DEBUG | INFO, INFO | WARNING, WARNING | ERROR, ERROR => true
  | _, _ => false
  end.

(** [e] is a log record of level [lv]. *)
Definition logged_at (lv : level) (e : event) : bool :=
  match e with
  | EvLog m => level_eqb (level_of m) lv
  | _ => false
  end.

(** The numeric values of the levels of [logging]. *)
Definition level_rank (lv : level) : nat :=
  match lv with
  | DEBUG => 10
  | INFO => 20
  | WARNING => 30
  | ERROR => 40
  end.

(** The records of [logs] that a logger set to [threshold] writes: the
    ones at or above it.  Line 13 sets [INFO]; [-v] sets [DEBUG]. *)
Definition emitted (threshold : level) (logs : list log_msg) : list log_msg :=
  filter (fun m => level_rank threshold <=? level_rank (level_of m)) logs.

(** ** extract_recipe on tag objects of a document *)

(** A tag that [find] returns is not a copy: it is an object of the
    document tree, and the tree could be changed through it.  Here a tag is
    a reference into the document, the document is a state that every
    operation receives and returns, and an operation may raise. *)
Module Store.

(** The position of a node in the document: the indices of the children to
    descend through, from the root. *)
Definition ref : Type := list nat.

(** The node at a position, if there is one. *)
Fixpoint subtree (n : node) (p : ref) : option node :=
  match p with
  | [] => Some n
  | i :: q =>
      match n with
      | Tag _ _ cs =>
          match nth_error cs i with
          | Some c => subtree c q
          | None => None
          end
      | _ => None
      end
  end.

Definition push (i : nat) (qm : ref * node) : ref * node :=
  (i :: fst qm, snd qm).

(** [tag.descendants] with the position of each node relative to [n], in
    document order. *)
Fixpoint paths (n : node) : list (ref * node) :=
  match n with
  | Tag _ _ cs =>
      (fix go (i : nat) (l : list node) : list (ref * node) :=
         match l with
         | [] => []
         | c :: l' => ([i], c) :: map (push i) (paths c) ++ go (S i) l'
         end) 0 cs
  | _ => []
  end.

(** [n.find(name, key=value)] as a position relative to [n]. *)
Definition find_path (n : node) (name key value : string) : option ref :=
  option_map fst
    (List.find (fun qm => Bs4.matches name key value (snd qm)) (paths n)).

(** A computation on a state [S] that returns or raises. *)
Definition M (S A : Type) : Type := S -> result A * S.

Definition ret_s {S A : Type} (a : A) : M S A := fun s => (Ret a, s).

Definition bind_s {S A B : Type} (m : M S A) (k : A -> M S B) : M S B :=
  fun s =>
    match m s with
    | (Ret a, s') => k a s'
    | (Raise e, s') => (Raise e, s')
    end.

Notation "x <~ m ;; k" := (bind_s m (fun x => k))
  (at level 61, m at next level, right associativity).

(** The state that a computation leaves is the state it was given. *)
Definition preserves {S A : Type} (m : M S A) : Prop :=
  forall s, snd (m s) = s.

(** [descendants] and [paths] of the children of a tag, the first child
    having index [i]. *)
Fixpoint descendants_list (l : list node) : list node :=
  match l with
  | [] => []
  | c :: l' => c :: Bs4.descendants c ++ descendants_list l'
  end.

Fixpoint paths_list (i : nat) (l : list node) : list (ref * node) :=
  match l with
  | [] => []
  | c :: l' => ([i], c) :: map (push i) (paths c) ++ paths_list (S i) l'
  end.

(** The operations [extract_recipe] performs, on tag objects of type [T]
    in a state of type [S]. *)
Class TagOpsS (S T : Type) : Type := {
  find_s : T -> string -> string -> M S (option T);
  get_text_s : T -> M S string;
  stripped_strings_s : T -> M S (list string)
}.

(** The operations leave the state as it is. *)
Definition read_only {S T : Type} (ops : TagOpsS S T) : Prop :=
  (forall t name cls s, snd (find_s t name cls s) = s) /\
  (forall t s, snd (get_text_s t s) = s) /\
  (forall t s, snd (stripped_strings_s t s) = s).

Section ExtractRecipeS.

Context {S T : Type} {ops : TagOpsS S T}.

(** The body of the [try] block, lines 62-92. *)
Definition extract_recipe_try_s (post : T) : M S (option recipe * list log_msg) :=
  title_tag <~ find_s post "div" "recipe-title" ;;
  author_tag <~ find_s post "div" "recipe-author" ;;
  date_tag <~ find_s post "div" "recipe-date" ;;
  ingr_tag <~ find_s post "div" "recipe-ingredients" ;;
  instr_tag <~ find_s post "div" "recipe-instructions" ;;
  match title_tag, author_tag, date_tag, ingr_tag, instr_tag with
  | Some title_tag, Some author_tag, Some date_tag, Some ingr_tag, Some instr_tag =>
      title <~ get_text_s title_tag ;;
      author <~ get_text_s author_tag ;;
      date <~ get_text_s date_tag ;;
      ingr_lines <~ stripped_strings_s ingr_tag ;;
      let ingredients := append_all ingr_lines in
      instr_lines <~ stripped_strings_s instr_tag ;;
      let instructions := append_all instr_lines in
      ret_s (Some (mkRecipe title author date ingredients instructions), [])
  | _, _, _, _, _ => ret_s (None, [LogMissingFields])
  end.

(** [extract_recipe(post)] in state [s]: the record or [None] with the log
    records written, and the state the call leaves. *)
Definition extract_recipe_s (post : T) (s : S)
  : (option recipe * list log_msg) * S :=
  match extract_recipe_try_s post s with
  | (Ret r, s') => (r, s')
  | (Raise e, s') => ((None, [LogParseError e]), s')
  end.

End ExtractRecipeS.

(** Following a reference; one that points nowhere raises. *)
Definition deref (doc : node) (t : ref) : result node :=
  match subtree doc t with
  | Some n => Ret n
  | None => Raise (Exception "detached")
  end.

(** bs4 on the references of a document: the state is the document. *)
#[export] Instance bs4_store : TagOpsS node ref := {
  find_s := fun t name cls doc =>
    (n <- deref doc t ;;
     Ret (option_map (fun q => t ++ q) (find_path n name "class" cls)), doc);
  get_text_s := fun t doc =>
    (n <- deref doc t ;; Ret (Bs4.get_text_strip n), doc);
  stripped_strings_s := fun t doc =>
    (n <- deref doc t ;; Ret (Bs4.stripped_strings n), doc)
}.

End Store.

(** ** Where the locations of a run come from *)

Section Provenance.

Variable Net : Type.
Variable Response : Type.
Variable session_get : Net -> string -> option Response * Net.
Variable BeautifulSoup : Response -> node.
Variable urljoin : string -> string -> string.



End Provenance.

Module MoreExamples.

Import Examples.

Definition url_a : string := "http://brew.example/a.html".
Definition url_b : string := "http://brew.example/b.html".

(** Two pages that name each other as the next page. *)
Definition page_a : node := document [ post_ipa; a_rel "next" "b.html" ].
Definition page_b : node := document [ post_markup; a_class "next-page" "a.html" ].

Definition cycle_site (n : nat) (url : string) : option node * nat :=
  (if String.eqb url url_a then Some page_a
   else if String.eqb url url_b then Some page_b
   else None, S n).

(** A page whose only link has no target. *)
Definition page_dead_link : node :=
  document [ post_ipa; Tag "a" [("rel", "next"); ("href", "")] [NavigableString "Next"] ].




End MoreExamples.

(** * Properties *)

(** ** Strings *)

Module PyStrFacts.

Import PyStr.

Lemma lstrip_all_space (s : string) : all_space s = true -> lstrip s = "".
Proof.
  induction s as [|c r IH]; simpl; intros H; [reflexivity|].
  apply andb_prop in H as [Hc Hr]. rewrite Hc. auto.
Qed.

Lemma lstrip_empty (s : string) : lstrip s = "" -> all_space s = true.
Proof.
  induction s as [|c r IH]; simpl; intros H; [reflexivity|].
  destruct (is_space c); [auto | discriminate].
Qed.

Lemma rstrip_empty (s : string) : rstrip s = "" -> all_space s = true.
Proof.
  induction s as [|c r IH]; simpl; [reflexivity|].
  destruct (rstrip r) eqn:E; [|discriminate].
  destruct (is_space c); [intros _; auto | discriminate].
Qed.

(** What [lstrip] leaves does not start with whitespace. *)
Lemma lstrip_head (s : string) :
  lstrip s = "" \/ exists c r, lstrip s = String c r /\ is_space c = false.
Proof.
  induction s as [|c r IH]; simpl; [now left|].
  destruct (is_space c) eqn:E; [exact IH|].
  right. now exists c, r.
Qed.

Lemma rstrip_head (c : ascii) (r : string) :
  is_space c = false -> exists r', rstrip (String c r) = String c r'.
Proof.
  intros H. simpl. rewrite H. destruct (rstrip r); eauto.
Qed.

Lemma rstrip_idem (s : string) : rstrip (rstrip s) = rstrip s.
Proof.
  induction s as [|c r IH]; simpl; [reflexivity|].
  destruct (rstrip r) as [|c' r'] eqn:E.
  - destruct (is_space c) eqn:Hc; simpl; [reflexivity | now rewrite Hc].
  - change (rstrip (String c (String c' r'))) with
      (match rstrip (String c' r') with
       | EmptyString => if is_space c then EmptyString else String c EmptyString
       | r0 => String c r0
       end).
    now rewrite IH.
Qed.

Lemma strip_all_space (s : string) : all_space s = true -> strip s = "".
Proof. intros H. unfold strip. now rewrite lstrip_all_space. Qed.

Lemma strip_empty (s : string) : strip s = "" -> all_space s = true.
Proof.
  unfold strip. intros H. apply rstrip_empty in H.
  destruct (lstrip_head s) as [E | (c & r & E & Hc)].
  - now apply lstrip_empty.
  - rewrite E in H. simpl in H. now rewrite Hc in H.
Qed.

Lemma strip_idem (s : string) : strip (strip s) = strip s.
Proof.
  unfold strip.
  destruct (lstrip_head s) as [E | (c & r & E & Hc)]; rewrite E.
  - reflexivity.
  - destruct (@rstrip_head c r Hc) as [r' E']. rewrite E'.
    simpl lstrip. rewrite Hc. rewrite <- E'. apply rstrip_idem.
Qed.

Lemma truthy_strip (s : string) : truthy (strip s) = negb (all_space s).
Proof.
  destruct (all_space s) eqn:E.
  - now rewrite strip_all_space.
  - destruct (strip s) eqn:E'; [|reflexivity].
    apply strip_empty in E'. congruence.
Qed.

End PyStrFacts.

(** ** extract_recipe *)

Section ExtractFacts.

Context {T : Type} {ops : TagOps T}.

Lemma append_all_id (lines : list string) : append_all lines = lines.
Proof.
  unfold append_all.
  enough (H : forall out, fold_left (fun o l => o ++ [l]) lines out = out ++ lines)
    by apply (H []).
  induction lines as [|x l IH]; intros out; simpl.
  - now rewrite app_nil_r.
  - rewrite IH, <- app_assoc. reflexivity.
Qed.

Lemma extracted_app (l1 l2 : list T) :
  extracted (l1 ++ l2) = extracted l1 ++ extracted l2.
Proof. unfold extracted. apply flat_map_app. Qed.

Lemma process_posts_fold (posts : list T) (acc : list recipe) (logs : list log_msg) :
  fst (fold_left process_post posts (acc, logs)) = acc ++ extracted posts.
Proof.
  revert acc logs.
  induction posts as [|p l IH]; intros acc logs; simpl.
  - now rewrite app_nil_r.
  - destruct (extract_recipe p) as [[r|] lg]; simpl; rewrite IH.
    + now rewrite <- app_assoc.
    + reflexivity.
Qed.

(** The loop over the posts of a page appends the extracted records, in
    order, and nothing else. *)
Lemma process_posts_extracted (posts : list T) (acc : list recipe) :
  fst (process_posts posts acc) = acc ++ extracted posts.
Proof. apply process_posts_fold. Qed.

Lemma extracted_skip (post : T) (before after : list T) :
  fst (extract_recipe post) = None ->
  extracted (before ++ post :: after) = extracted before ++ extracted after.
Proof.
  intros H. rewrite extracted_app. f_equal.
  unfold extracted at 1. simpl. now rewrite H.
Qed.

End ExtractFacts.

Module ExtractBs4.

Import PyStr PyStrFacts.

(** [extract_recipe] on the document tree, the exception handler and the
    monad unfolded. *)
Lemma extract_recipe_unfold (post : node) :
  extract_recipe post =
  match Bs4.find_by post "div" "class" "recipe-title",
        Bs4.find_by post "div" "class" "recipe-author",
        Bs4.find_by post "div" "class" "recipe-date",
        Bs4.find_by post "div" "class" "recipe-ingredients",
        Bs4.find_by post "div" "class" "recipe-instructions" with
  | Some t, Some a, Some d, Some i, Some s =>
      (Some (mkRecipe (Bs4.get_text_strip t) (Bs4.get_text_strip a)
                      (Bs4.get_text_strip d)
                      (Bs4.stripped_strings i) (Bs4.stripped_strings s)), [])
  | _, _, _, _, _ => (None, [LogMissingFields])
  end.
Proof.
  unfold extract_recipe, extract_recipe_try.
  cbn [find get_text stripped_strings bs4_ops bind].
  destruct (Bs4.find_by post "div" "class" "recipe-title");
    destruct (Bs4.find_by post "div" "class" "recipe-author");
    destruct (Bs4.find_by post "div" "class" "recipe-date");
    destruct (Bs4.find_by post "div" "class" "recipe-ingredients");
    destruct (Bs4.find_by post "div" "class" "recipe-instructions");
    cbn [bind]; rewrite ?append_all_id; reflexivity.
Qed.

Lemma stripped_strings_alt (n : node) :
  Bs4.stripped_strings n
  = map strip (filter (fun x => negb (all_space x)) (Bs4.strings n)).
Proof.
  unfold Bs4.stripped_strings.
  induction (Bs4.strings n) as [|x l IH]; simpl; [reflexivity|].
  rewrite truthy_strip. destruct (all_space x); simpl; now rewrite IH.
Qed.

Lemma stripped_strings_trimmed (n : node) :
  Forall (fun x => x <> "" /\ strip x = x) (Bs4.stripped_strings n).
Proof.
  unfold Bs4.stripped_strings.
  apply Forall_forall. intros x Hx.
  apply filter_In in Hx as [Hin Ht].
  apply in_map_iff in Hin as (y & <- & _).
  split; [|apply strip_idem].
  intros E. now rewrite E in Ht.
Qed.

Lemma stripped_strings_blank (n : node) :
  Forall (fun x => all_space x = true) (Bs4.strings n) ->
  Bs4.stripped_strings n = [].
Proof.
  rewrite stripped_strings_alt.
  induction 1 as [|x l Hx _ IH]; simpl; [reflexivity|].
  now rewrite Hx.
Qed.

Lemma append_empty (s : string) : String.append s "" = s.
Proof. induction s as [|c r IH]; simpl; [reflexivity | now rewrite IH]. Qed.

Lemma get_text_single (n : node) (x : string) :
  Bs4.strings n = [x] -> Bs4.get_text_strip n = Spec.trimmed_plain_text n.
Proof.
  intros H. unfold Bs4.get_text_strip, Spec.trimmed_plain_text, Bs4.stripped_strings.
  rewrite H. simpl. rewrite append_empty.
  destruct (strip x) eqn:E; simpl; rewrite ?append_empty; reflexivity.
Qed.

(** C3. A post in which one of the five markers is absent yields [None],
    with one debug record and no record at all, and the loop over the posts
    of the page appends nothing for it: the page contributes what it would
    contribute without the post. *)
Theorem extract_recipe_incomplete
  (post : node) (marker : string) (before after : list node) (acc : list recipe) :
  In marker MARKERS ->
  Bs4.find_by post "div" "class" marker = None ->
  extract_recipe post = (None, [LogMissingFields]) /\
  level_of LogMissingFields = DEBUG /\
  fst (process_posts (before ++ post :: after) acc)
  = fst (process_posts (before ++ after) acc).
Proof.
  intros Hin Hnone.
  assert (E : extract_recipe post = (None, [LogMissingFields])).
  { rewrite extract_recipe_unfold.
    unfold MARKERS in Hin. simpl in Hin.
    destruct Hin as [<-|[<-|[<-|[<-|[<-|[]]]]]]; rewrite Hnone;
      repeat match goal with
             | |- context [match Bs4.find_by ?p ?a ?b ?c with _ => _ end] =>
                 destruct (Bs4.find_by p a b c)
             end; reflexivity. }
  split; [exact E|]. split; [reflexivity|].
  rewrite !process_posts_extracted, extracted_skip; [|now rewrite E].
  now rewrite extracted_app.
Qed.

(** C6, as amended. A post with all five markers yields a record.  Its
    ingredients and instructions are the text fragments of their blocks in
    document order, the whitespace-only ones left out and every other one
    stripped, so each entry is non-empty and trimmed.  Its title, author
    and date are the stripped non-empty fragments of their markers joined
    without a separator, which is the trimmed plain text of a marker that
    holds a single text fragment. *)
Theorem extract_recipe_complete (post t a d i s : node) :
  Bs4.find_by post "div" "class" "recipe-title" = Some t ->
  Bs4.find_by post "div" "class" "recipe-author" = Some a ->
  Bs4.find_by post "div" "class" "recipe-date" = Some d ->
  Bs4.find_by post "div" "class" "recipe-ingredients" = Some i ->
  Bs4.find_by post "div" "class" "recipe-instructions" = Some s ->
  exists r,
    extract_recipe post = (Some r, []) /\
    ingredients r
    = map strip (filter (fun x => negb (all_space x)) (Bs4.strings i)) /\
    instructions r
    = map strip (filter (fun x => negb (all_space x)) (Bs4.strings s)) /\
    Forall (fun x => x <> "" /\ strip x = x) (ingredients r) /\
    Forall (fun x => x <> "" /\ strip x = x) (instructions r) /\
    title r
    = join (map strip (filter (fun x => negb (all_space x)) (Bs4.strings t))) /\
    author r
    = join (map strip (filter (fun x => negb (all_space x)) (Bs4.strings a))) /\
    date r
    = join (map strip (filter (fun x => negb (all_space x)) (Bs4.strings d))) /\
    (forall x, Bs4.strings t = [x] -> title r = Spec.trimmed_plain_text t) /\
    (forall x, Bs4.strings a = [x] -> author r = Spec.trimmed_plain_text a) /\
    (forall x, Bs4.strings d = [x] -> date r = Spec.trimmed_plain_text d).
Proof.
  intros Ht Ha Hd Hi Hs.
  eexists. rewrite extract_recipe_unfold, Ht, Ha, Hd, Hi, Hs.
  split; [reflexivity|]. cbn [title author date ingredients instructions].
  unfold Bs4.get_text_strip at 1 2 3.
  repeat split;
    try apply stripped_strings_alt;
    try apply stripped_strings_trimmed;
    try (now rewrite stripped_strings_alt);
    intros x Hx; fold (Bs4.get_text_strip t); fold (Bs4.get_text_strip a);
    fold (Bs4.get_text_strip d); eapply get_text_single; eassumption.
Qed.

(** C10. Five markers that are present and hold no text, or whitespace
    only, yield a record with empty text fields and empty lists: blank
    content is no reason to reject a post. *)
Theorem extract_recipe_blank (post t a d i s : node) :
  Bs4.find_by post "div" "class" "recipe-title" = Some t ->
  Bs4.find_by post "div" "class" "recipe-author" = Some a ->
  Bs4.find_by post "div" "class" "recipe-date" = Some d ->
  Bs4.find_by post "div" "class" "recipe-ingredients" = Some i ->
  Bs4.find_by post "div" "class" "recipe-instructions" = Some s ->
  Forall (fun n => Forall (fun x => all_space x = true) (Bs4.strings n))
         [t; a; d; i; s] ->
  extract_recipe post = (Some (mkRecipe "" "" "" [] []), []).
Proof.
  intros Ht Ha Hd Hi Hs Hblank.
  rewrite extract_recipe_unfold, Ht, Ha, Hd, Hi, Hs.
  unfold Bs4.get_text_strip.
  repeat match goal with
         | H : Forall _ (_ :: _) |- _ => inversion H; subst; clear H
         end.
  rewrite !stripped_strings_blank by assumption. reflexivity.
Qed.

End ExtractBs4.

(** ** fetch_url *)

Section FetchFacts.

Variable Net : Type.
Variable Response : Type.
Variable session_get : Net -> string -> option Response * Net.

Local Ltac solve_k :=
  unfold MAX_RETRIES; repeat split;
  try lia; try reflexivity; try (intros; discriminate).

(** C2. [fetch_url] makes [k] attempts, [1 <= k <= 3]: its traffic is [k]
    requests for the URL with a pause of exactly 3 before each one but the
    first, the first [k - 1] attempts failed, the last one produced the
    result, and the result is a failure only when [k = 3].  Hence an
    endpoint that fails twice and then answers yields the answer after
    exactly two pauses, and one that fails three times sees exactly three
    requests and yields the failure. *)
Theorem fetch_url_retries (net : Net) (url : string) :
  let '(r, _, tr) := fetch_url session_get net url in
  (exists k,
      1 <= k <= MAX_RETRIES /\
      io_events tr = Spec.retry_schedule k url /\
      get_outcomes session_get k net url = repeat None (k - 1) ++ [r] /\
      (r = None -> k = MAX_RETRIES)) /\
  (forall c, get_outcomes session_get 3 net url = [None; None; Some c] ->
             r = Some c /\
             filter is_sleep tr = [EvSleep 3; EvSleep 3] /\
             length (filter is_get tr) = 3) /\
  (get_outcomes session_get 3 net url = [None; None; None] ->
   r = None /\
   filter is_get tr = [EvGet url; EvGet url; EvGet url] /\
   filter is_sleep tr = [EvSleep 3; EvSleep 3]).
Proof.
    unfold fetch_url. cbn [seq MAX_RETRIES fetch_attempts].
  destruct (session_get net url) as [[r1|] n1] eqn:E1.
  - cbn. rewrite E1. split; [exists 1; cbn; rewrite E1; solve_k|].
    destruct (session_get n1 url) as [o2 n2]; destruct (session_get n2 url).
    split; [intros c H | intros H]; discriminate.
  - destruct (session_get n1 url) as [[r2|] n2] eqn:E2.
    + cbn. rewrite E1, E2.
      split; [exists 2; cbn; rewrite E1, E2; solve_k|].
      destruct (session_get n2 url).
      split; [intros c H | intros H]; discriminate.
    + destruct (session_get n2 url) as [[r3|] n3] eqn:E3.
      * cbn. rewrite E1, E2, E3.
        split; [exists 3; cbn; rewrite E1, E2, E3; solve_k|].
        split; [intros c H | intros H; discriminate].
        injection H as ->. auto.
      * cbn. rewrite E1, E2, E3.
        split; [exists 3; cbn; rewrite E1, E2, E3; solve_k|].
        split; [intros c H; discriminate | intros H]. auto.
Qed.

(** A call of [fetch_url] writes no page record. *)
Lemma fetch_url_calls (net : Net) (url : string) :
  fetch_calls (snd (fetch_url session_get net url)) = [].
Proof.
  unfold fetch_url. cbn [seq MAX_RETRIES fetch_attempts].
  destruct (session_get net url) as [[r1|] n1]; [reflexivity|].
  destruct (session_get n1 url) as [[r2|] n2]; [reflexivity|].
  destruct (session_get n2 url) as [[r3|] n3]; reflexivity.
Qed.


End FetchFacts.

(** ** find_next_page *)

Section LocatorFacts.

Variable urljoin : string -> string -> string.


(** The loop over all links returns the target of the first link, in
    document order, that has both a matching text and a truthy target. *)
Lemma next_by_text_first (l : list node) (base_url : string) :
  next_by_text urljoin (filter (Bs4.is_tag "a") l) base_url
  = option_map (urljoin base_url)
      match List.find (fun a => Bs4.is_tag "a" a
                                && next_or_more (PyStr.lower (Bs4.get_text_strip a))
                                && has_href a) l with
      | Some a => href_of a
      | None => None
      end.
Proof.
  induction l as [|x l IH]; [reflexivity|].
  cbn [filter List.find].
  destruct (Bs4.is_tag "a" x); cbn [andb]; [|exact IH].
  cbn [next_by_text].
  destruct (next_or_more (PyStr.lower (Bs4.get_text_strip x))); [|exact IH].
  unfold has_href in *.
  destruct (href_of x) as [h|] eqn:Eh; cbn [andb]; [now rewrite Eh | exact IH].
Qed.

(** When every link that carries the marker has a truthy target, looking
    at the first marked link only is looking for the first marked link with
    a target. *)
Lemma link_href_marked (soup : node) (key value : string) :
  (forall a, In a (Bs4.descendants soup) ->
             Bs4.matches "a" key value a = true -> has_href a = true) ->
  link_href (Bs4.find_by soup "a" key value)
  = Spec.marked_link_target soup key value.
Proof.
  unfold Bs4.find_by, Spec.marked_link_target.
  induction (Bs4.descendants soup) as [|x l IH]; intros H; [reflexivity|].
  cbn [List.find].
  destruct (Bs4.matches "a" key value x) eqn:E; cbn [andb].
  - assert (Hx : has_href x = true) by (apply H; [now left | exact E]).
    rewrite Hx. reflexivity.
  - apply IH. intros a Ha. apply H. now right.
Qed.


Lemma find_next_page_target (soup : node) (base_url : string) :
  find_next_page urljoin soup base_url
  = option_map (urljoin base_url) (next_target soup).
Proof.
  unfold find_next_page, next_target.
  destruct (link_href (Bs4.find_by soup "a" "rel" "next")); [reflexivity|].
  destruct (link_href (Bs4.find_by soup "a" "class" "next-page")); [reflexivity|].
  apply next_by_text_first.
Qed.


(** C4, as amended. The three heuristics are consulted in a fixed order and
    the first one that succeeds decides.  The first two look at the first
    link in document order that carries the marker ([rel] token next, class
    token next-page) and succeed when that link has a non-empty target; the
    third takes the first link whose text matches and whose target is not
    empty.  A first [rel] link with a target wins whatever the class
    markers and the link texts are, and where every marked link has a
    target the first two heuristics find the first marked link with a
    target. *)
Theorem find_next_page_order (soup : node) (base_url : string) :
  find_next_page urljoin soup base_url
  = option_map (urljoin base_url)
      match link_href (Bs4.find_by soup "a" "rel" "next") with
      | Some href => Some href
      | None =>
          match link_href (Bs4.find_by soup "a" "class" "next-page") with
          | Some href => Some href
          | None => Spec.text_link_target soup
          end
      end
  /\ (forall link href,
        Bs4.find_by soup "a" "rel" "next" = Some link ->
        href_of link = Some href ->
        find_next_page urljoin soup base_url = Some (urljoin base_url href))
  /\ (forall key value,
        (forall a, In a (Bs4.descendants soup) ->
                   Bs4.matches "a" key value a = true -> has_href a = true) ->
        link_href (Bs4.find_by soup "a" key value)
        = Spec.marked_link_target soup key value).
Proof.
  split; [apply find_next_page_target|]. split.
  - intros link href Hf Hh. unfold find_next_page.
    rewrite Hf. cbn [link_href]. now rewrite Hh.
  - intros key value. apply link_href_marked.
Qed.

End LocatorFacts.

(** ** scrape_recipes *)

Section DriverFacts.

Variable Net : Type.
Variable Response : Type.
Variable session_get : Net -> string -> option Response * Net.
Variable BeautifulSoup : Response -> node.
Variable urljoin : string -> string -> string.
Context {ops : TagOps node}.

Lemma fetch_calls_app (t1 t2 : list event) :
  fetch_calls (t1 ++ t2) = fetch_calls t1 ++ fetch_calls t2.
Proof. apply flat_map_app. Qed.

(** [extract_recipe] writes no page record. *)
Lemma extract_recipe_calls (post : node) :
  fetch_calls (map EvLog (snd (extract_recipe post))) = [].
Proof.
  unfold extract_recipe, extract_recipe_try.
  repeat match goal with
         | |- context [bind ?m _] => destruct m; cbn [bind]
         | |- context [match ?o with Some _ => _ | None => _ end] => destruct o
         end; reflexivity.
Qed.

Lemma process_posts_calls (posts : list node) (acc : list recipe) :
  fetch_calls (map EvLog (snd (process_posts posts acc))) = [].
Proof.
  unfold process_posts.
  enough (H : forall acc logs,
             fetch_calls (map EvLog logs) = [] ->
             fetch_calls (map EvLog (snd (fold_left process_post posts (acc, logs)))) = [])
    by now apply H.
  induction posts as [|p l IH]; intros a logs Hl; [exact Hl|].
  cbn [fold_left]. unfold process_post at 2.
  pose proof (extract_recipe_calls p) as Hp.
  destruct (extract_recipe p) as [[r|] lg]; cbn [snd] in Hp;
    apply IH; now rewrite map_app, fetch_calls_app, Hl, Hp.
Qed.


(** The loop is left by [break] when the fetch fails: nothing but the trace
    and the network changes. *)
Lemma step_fetch_failed (st : state Net) (url : string) :
  current_url st = Some url -> PyStr.truthy url = true ->
  fst (fst (fetch_url session_get (network st) url)) = None ->
  exists st',
    step session_get BeautifulSoup urljoin st = Done st' /\
    all_recipes st' = all_recipes st /\
    fetch_calls (trace st') = fetch_calls (trace st) ++ [url].
Proof.
  intros Hu Ht Hf. unfold step. rewrite Hu, Ht.
  pose proof (fetch_url_calls session_get (network st) url) as Hc.
  destruct (fetch_url session_get (network st) url) as [[r net'] ftr].
  cbn [fst snd] in Hf, Hc. subst r.
  eexists. split; [reflexivity|]. split; [reflexivity|].
  cbn [trace]. now rewrite !fetch_calls_app, Hc, app_nil_r.
Qed.

(** A page that was fetched: its posts are processed in order, and the
    loop goes on with the next location or with none. *)
Lemma step_fetched (st : state Net) (url : string) (resp : Response)
      (net' : Net) (ftr : list event) :
  current_url st = Some url -> PyStr.truthy url = true ->
  fetch_url session_get (network st) url = (Some resp, net', ftr) ->
  exists st',
    step session_get BeautifulSoup urljoin st = Running st' /\
    all_recipes st'
    = all_recipes st
      ++ extracted (Bs4.find_all_by (BeautifulSoup resp) "div" "class" "recipe-post") /\
    network st' = net' /\
    current_url st' = next_url urljoin (BeautifulSoup resp) url /\
    fetch_calls (trace st') = fetch_calls (trace st) ++ [url].
Proof.
  intros Hu Ht Hf. unfold step, next_url. rewrite Hu, Ht.
  pose proof (fetch_url_calls session_get (network st) url) as Hc.
  rewrite Hf in *. cbn [snd] in Hc.
  set (posts := Bs4.find_all_by (BeautifulSoup resp) "div" "class" "recipe-post").
  pose proof (process_posts_extracted posts (all_recipes st)) as Hr.
  pose proof (process_posts_calls posts (all_recipes st)) as Hl.
  destruct (process_posts posts (all_recipes st)) as [recipes logs].
  cbn [fst snd] in Hr, Hl.
  destruct (find_next_page urljoin (BeautifulSoup resp) url) as [next|];
    [destruct (PyStr.truthy next && negb (String.eqb next url))|];
    eexists; (split; [reflexivity|]); cbn [all_recipes network current_url trace];
    repeat split; auto;
    rewrite !fetch_calls_app, Hc, Hl; cbn; now rewrite ?app_nil_r.
Qed.

Lemma step_not_running (st : state Net) :
  url_truthy (current_url st) = false ->
  step session_get BeautifulSoup urljoin st = Done st.
Proof.
  unfold step, url_truthy. destruct (current_url st) as [u|]; [|reflexivity].
  now intros ->.
Qed.


Lemma logs_no_sleep (logs : list log_msg) :
  filter is_sleep (map EvLog logs) = [].
Proof. induction logs as [|m l IH]; [reflexivity | exact IH]. Qed.

(** C5, as amended. When the target that [find_next_page] returns is the
    very string of the current location, the loop does not go on with it:
    the current location is set to none without a pause, the next test of
    the loop ends the run, and the page is not fetched again.  The trace of
    the iteration ends with the log records of the posts, and its only
    pauses are the ones of [fetch_url].  The comparison is made by the
    loop; [find_next_page] itself returns the target. *)
Theorem self_link_ends_run (st : state Net) (url : string) (resp : Response)
        (net' : Net) (ftr : list event) :
  current_url st = Some url -> PyStr.truthy url = true ->
  fetch_url session_get (network st) url = (Some resp, net', ftr) ->
  find_next_page urljoin (BeautifulSoup resp) url = Some url ->
  exists st',
    step session_get BeautifulSoup urljoin st = Running st' /\
    current_url st' = None /\
    network st' = net' /\
    fetch_calls (trace st') = fetch_calls (trace st) ++ [url] /\
    (forall fuel, 2 <= fuel ->
                  run session_get BeautifulSoup urljoin fuel st = Done st') /\
    trace st'
    = trace st
      ++ EvLog (LogScrapingPage url) :: ftr
      ++ EvLog (LogFoundPosts
                  (length (Bs4.find_all_by (BeautifulSoup resp)
                                           "div" "class" "recipe-post")))
         :: map EvLog
              (snd (process_posts
                      (Bs4.find_all_by (BeautifulSoup resp) "div" "class" "recipe-post")
                      (all_recipes st))) /\
    filter is_sleep (trace st') = filter is_sleep (trace st) ++ filter is_sleep ftr.
Proof.
  intros Hu Ht Hf Hn.
  destruct (step_fetched st Hu Ht Hf) as (st' & Hs & _ & Hnet & Hcur & Hcalls).
  unfold next_url in Hcur. rewrite Hn, String.eqb_refl, andb_false_r in Hcur.
  assert (Htr : trace st'
    = trace st
      ++ EvLog (LogScrapingPage url) :: ftr
      ++ EvLog (LogFoundPosts
                  (length (Bs4.find_all_by (BeautifulSoup resp)
                                           "div" "class" "recipe-post")))
         :: map EvLog
              (snd (process_posts
                      (Bs4.find_all_by (BeautifulSoup resp) "div" "class" "recipe-post")
                      (all_recipes st)))).
  { pose proof Hs as Hs'. unfold step in Hs'. rewrite Hu, Ht, Hf in Hs'.
    destruct (process_posts
                (Bs4.find_all_by (BeautifulSoup resp) "div" "class" "recipe-post")
                (all_recipes st)) as [recipes logs].
    cbv zeta in Hs'. rewrite Hn, String.eqb_refl, andb_false_r in Hs'.
    injection Hs' as <-. cbn [trace snd].
    now rewrite <- !app_assoc. }
  exists st'. repeat split; auto.
  - intros fuel Hfuel. destruct fuel as [|[|k]]; try lia.
    cbn [run]. rewrite Hs. rewrite step_not_running; [reflexivity|].
    now rewrite Hcur.
  - rewrite Htr, filter_app. cbn [filter is_sleep].
    rewrite filter_app. cbn [filter is_sleep].
    now rewrite logs_no_sleep, app_nil_r.
Qed.

(** C8. An exception raised while a post is being extracted is caught in
    [extract_recipe]: the call returns [None] after writing one error
    record.  The loop over the posts of the page goes on, so the posts
    before and after contribute their records as they would without it,
    and the page is processed to its end: the loop continues with
    whatever [find_next_page] says. *)
Theorem extract_recipe_catches (post : node) (e : exn) (before after : list node) :
  extract_recipe_try post = Raise e ->
  extract_recipe post = (None, [LogParseError e]) /\
  level_of (LogParseError e) = ERROR /\
  (forall acc,
      fst (process_posts (before ++ post :: after) acc)
      = acc ++ extracted before ++ extracted after) /\
  (forall st url resp net' ftr,
      current_url st = Some url -> PyStr.truthy url = true ->
      fetch_url session_get (network st) url = (Some resp, net', ftr) ->
      Bs4.find_all_by (BeautifulSoup resp) "div" "class" "recipe-post"
      = before ++ post :: after ->
      exists st',
        step session_get BeautifulSoup urljoin st = Running st' /\
        all_recipes st' = all_recipes st ++ extracted before ++ extracted after /\
        current_url st' = next_url urljoin (BeautifulSoup resp) url).
Proof.
  intros Hraise.
  assert (E : extract_recipe post = (None, [LogParseError e]))
    by (unfold extract_recipe; now rewrite Hraise).
  assert (Hskip : extracted (before ++ post :: after)
                  = extracted before ++ extracted after)
    by (apply extracted_skip; now rewrite E).
  split; [exact E|]. split; [reflexivity|]. split.
  - intros acc. now rewrite process_posts_extracted, Hskip.
  - intros st url resp net' ftr Hu Ht Hf Hposts.
    destruct (step_fetched st Hu Ht Hf) as (st' & Hs & Hr & _ & Hcur & _).
    exists st'. rewrite Hposts, Hskip in Hr. auto.
Qed.





End DriverFacts.

(** ** Concrete runs *)

Module Runs.

Import Examples.

(** [extract_recipe_incomplete] on a post without a date marker, between two
    complete posts. *)
Lemma extract_recipe_incomplete_run :
  extract_recipe post_no_date = (None, [LogMissingFields]) /\
  level_of LogMissingFields = DEBUG /\
  fst (process_posts ([post_ipa] ++ post_no_date :: [post_markup]) [])
  = fst (process_posts ([post_ipa] ++ [post_markup]) []).
Proof.
  apply (@ExtractBs4.extract_recipe_incomplete
           post_no_date "recipe-date" [post_ipa] [post_markup] []).
  - unfold MARKERS. right. right. left. reflexivity.
  - vm_compute. reflexivity.
Defined.

(** The title of a marker with two text fragments is their concatenation,
    not the trimmed text of the marker. *)
Lemma title_joins_fragments :
  Bs4.find_by post_markup "div" "class" "recipe-title" = Some title_markup /\
  option_map title (fst (extract_recipe post_markup)) = Some "PaleAle" /\
  Spec.trimmed_plain_text title_markup = "Pale Ale" /\
  option_map title (fst (extract_recipe post_markup))
  <> Some (Spec.trimmed_plain_text title_markup).
Proof.
  repeat split; try (vm_compute; reflexivity).
  vm_compute. discriminate.
Qed.

(** [extract_recipe_complete] on [post_ipa]. *)
Lemma extract_recipe_complete_run :
  exists r,
    extract_recipe post_ipa = (Some r, []) /\
    ingredients r = ["5 kg pale malt"; "60 g Simcoe"] /\
    instructions r = ["Mash at 66C"; "Boil 60 min"] /\
    title r = "West Coast IPA".
Proof.
  destruct (@ExtractBs4.extract_recipe_complete post_ipa
              (text_div "recipe-title" "  West Coast IPA ")
              (text_div "recipe-author" "hophead")
              (text_div "recipe-date" "2021-05-01")
              (div "recipe-ingredients"
                 [ NavigableString " 5 kg pale malt "; Tag "br" [] [];
                   NavigableString "   "; Comment "hops";
                   Tag "span" [] [NavigableString "60 g Simcoe"] ])
              (div "recipe-instructions"
                 [ NavigableString "Mash at 66C"; Tag "br" [] [];
                   NavigableString "Boil 60 min" ])
              eq_refl eq_refl eq_refl eq_refl eq_refl)
    as (r & Hr & Hi & Hs & _ & _ & Ht & _).
  exists r. repeat split; [exact Hr | rewrite Hi | rewrite Hs | rewrite Ht];
    vm_compute; reflexivity.
Defined.

(** [extract_recipe_blank] on [post_blank]. *)
Lemma extract_recipe_blank_run :
  extract_recipe post_blank = (Some (mkRecipe "" "" "" [] []), []).
Proof.
  apply (@ExtractBs4.extract_recipe_blank post_blank
           (div "recipe-title" [])
           (text_div "recipe-author" "   ")
           (div "recipe-date" [Comment "tbd"])
           (div "recipe-ingredients" [NavigableString " "; Tag "br" [] []])
           (div "recipe-instructions" []));
    try (vm_compute; reflexivity).
  repeat constructor.
Defined.

(** [fetch_url_retries] on an endpoint that fails twice and on one that is
    down. *)
Lemma fetch_url_retries_run :
  (fst (fst (fetch_url (flaky 2 page_last) 0 base)) = Some page_last /\
   filter is_sleep (snd (fetch_url (flaky 2 page_last) 0 base))
   = [EvSleep 3; EvSleep 3]) /\
  (fst (fst (fetch_url down 0 base)) = None /\
   filter is_get (snd (fetch_url down 0 base)) = [EvGet base; EvGet base; EvGet base]).
Proof.
  split.
  - pose proof (fetch_url_retries (flaky 2 page_last) 0 base) as H.
    destruct (fetch_url (flaky 2 page_last) 0 base) as [[r n] tr].
    destruct H as (_ & H & _).
    destruct (H page_last eq_refl) as (Hr & Hs & _). now split.
  - pose proof (fetch_url_retries down 0 base) as H.
    destruct (fetch_url down 0 base) as [[r n] tr].
    destruct H as (_ & _ & H).
    destruct (H eq_refl) as (Hr & Hg & _). now split.
Defined.

(** The first [rel] link has no target, a later one has: the target of
    the class marker is returned although a link with a [rel] marker and a
    target is on the page. *)
Lemma find_next_page_first_rel_only :
  Spec.marked_link_target page_two_rel "rel" "next" = Some "page2.html" /\
  Spec.marked_link_target page_two_rel "class" "next-page" = Some "page3.html" /\
  find_next_page Url.urljoin_ref page_two_rel base
  = Some "http://brew.example/page3.html" /\
  find_next_page Url.urljoin_ref page_two_rel base
  <> Some (Url.urljoin_ref base "page2.html").
Proof.
  repeat split; try (vm_compute; reflexivity).
  vm_compute. discriminate.
Qed.

(** [find_next_page_order] on a page with both markers: the [rel] link wins
    although the class link comes first. *)
Lemma find_next_page_order_run :
  find_next_page Url.urljoin_ref page_both base
  = Some (Url.urljoin_ref base "page2.html") /\
  link_href (Bs4.find_by page_both "a" "rel" "next")
  = Spec.marked_link_target page_both "rel" "next".
Proof.
  destruct (find_next_page_order Url.urljoin_ref page_both base) as (_ & H2 & H3).
  split.
  - apply (H2 (a_rel "next" "page2.html") "page2.html"); vm_compute; reflexivity.
  - apply H3. intros a Ha Hm. vm_compute in Ha.
    repeat (destruct Ha as [<- | Ha];
            [first [ vm_compute; reflexivity | vm_compute in Hm; discriminate Hm ]|]).
    contradiction.
Defined.

(** The locator returns a target that is the current location. *)
Lemma find_next_page_returns_self :
  find_next_page Url.urljoin_ref page_self base = Some base /\
  find_next_page Url.urljoin_ref page_self base <> None.
Proof.
  split; [vm_compute; reflexivity | vm_compute; discriminate].
Qed.

(** [self_link_ends_run] on a site whose page links to itself: one fetch
    and no pause at all. *)
Lemma self_link_ends_run_run :
  exists st',
    run self_site (fun r => r) Url.urljoin_ref 2 (init 0 base) = Done st' /\
    current_url st' = None /\
    network st' = 1 /\
    fetch_calls (trace st') = [base] /\
    filter is_sleep (trace st') = [].
Proof.
  destruct (@self_link_ends_run nat node self_site (fun r => r) Url.urljoin_ref
              bs4_ops (init 0 base) base page_self 1
              (snd (fetch_url self_site 0 base))
              eq_refl eq_refl eq_refl eq_refl)
    as (st' & _ & Hc & Hn & Hf & Hrun & _ & Hsl).
  exists st'. repeat split; auto.
Defined.


(** [extract_recipe_catches] with a [get_text] that raises on one post. *)
Lemma extract_recipe_catches_run :
  @extract_recipe _ faulty_ops post_stout
  = (None, [LogParseError (Exception "boom")]) /\
  fst (@process_posts _ faulty_ops ([post_ipa] ++ post_stout :: [post_markup]) [])
  = @extracted _ faulty_ops [post_ipa] ++ @extracted _ faulty_ops [post_markup].
Proof.
  destruct (@extract_recipe_catches nat node two_pages (fun r => r) Url.urljoin_ref
              faulty_ops post_stout (Exception "boom") [post_ipa] [post_markup]
              eq_refl)
    as (H1 & _ & H3 & _).
  split; [exact H1 | exact (H3 [])].
Defined.



End Runs.

(** * Further properties of the four functions *)

(** ** extract_recipe and the loop over the posts *)

Section ExtractMore.

Context {T : Type} {ops : TagOps T}.

Lemma extract_recipe_try_ret (post : T) (r : option recipe) (l : list log_msg) :
  extract_recipe_try post = Ret (r, l) ->
  (exists rec, r = Some rec /\ l = []) \/ (r = None /\ l = [LogMissingFields]).
Proof.
  unfold extract_recipe_try.
  repeat match goal with
         | |- context [bind ?m _] => destruct m; cbn [bind]
         | |- context [match ?o with Some _ => _ | None => _ end] => destruct o
         end;
    intros E; try discriminate E; injection E as <- <-; eauto.
Qed.

(** X1. A call that returns a record makes no logging call.  A call that
    returns [None] makes exactly one: a debug call for a missing field,
    which a logger at the level [INFO] of line 13 does not write and one at
    [DEBUG] does, or an error call with the exception that was raised,
    which is written at [INFO]. *)
Theorem extract_recipe_logs (post : T) :
  (forall r, fst (extract_recipe post) = Some r -> snd (extract_recipe post) = []) /\
  (fst (extract_recipe post) = None ->
   (snd (extract_recipe post) = [LogMissingFields] /\
    emitted INFO (snd (extract_recipe post)) = [] /\
    emitted DEBUG (snd (extract_recipe post)) = [LogMissingFields]) \/
   exists e, extract_recipe_try post = Raise e /\
             snd (extract_recipe post) = [LogParseError e] /\
             emitted INFO (snd (extract_recipe post)) = [LogParseError e]).
Proof.
  unfold extract_recipe.
  destruct (extract_recipe_try post) as [[r l]|e] eqn:E.
  - apply extract_recipe_try_ret in E as [(rec & -> & ->) | (-> & ->)];
      cbn [fst snd].
    + split; [reflexivity | discriminate].
    + split; [discriminate|]. intros _. left. repeat split.
  - cbn [fst snd]. split; [discriminate|]. intros _. right.
    exists e. repeat split.
Qed.

Lemma extracted_length (posts : list T) : length (extracted posts) <= length posts.
Proof.
  induction posts as [|p l IH]; [apply le_n|].
  unfold extracted in *. cbn [flat_map]. rewrite length_app. cbn [length].
  destruct (fst (extract_recipe p)); cbn [length]; lia.
Qed.

(** X2. The loop over the posts of a page keeps the records collected
    before and appends the records of the posts in document order, at most
    one for each post; processing the posts in two parts, the second
    starting from the result of the first, gives the same list. *)
Theorem process_posts_in_order (l1 l2 : list T) (acc : list recipe) :
  fst (process_posts (l1 ++ l2) acc)
  = acc ++ extracted l1 ++ extracted l2 /\
  fst (process_posts (l1 ++ l2) acc)
  = fst (process_posts l2 (fst (process_posts l1 acc))) /\
  length (fst (process_posts (l1 ++ l2) acc))
  <= length acc + length l1 + length l2.
Proof.
  rewrite !process_posts_extracted, extracted_app.
  split; [reflexivity|]. split; [now rewrite app_assoc|].
  rewrite !length_app.
  pose proof (extracted_length l1). pose proof (extracted_length l2). lia.
Qed.

End ExtractMore.

(** ** fetch_url *)

Section FetchMore.

Variable Net : Type.
Variable Response : Type.
Variable session_get : Net -> string -> option Response * Net.

(** X3. The log of a call of [fetch_url]: one warning for each request
    that failed, one retry notice for each pause, and an error record
    exactly when the call returns [None].  Every request of the call is for
    the URL that was passed. *)
Theorem fetch_url_log (net : Net) (url : string) :
  let '(r, _, tr) := fetch_url session_get net url in
  let failed := length (filter is_get tr)
                - match r with Some _ => 1 | None => 0 end in
  length (filter (logged_at WARNING) tr) = failed /\
  length (filter (logged_at INFO) tr) = length (filter is_sleep tr) /\
  length (filter (logged_at ERROR) tr) = match r with Some _ => 0 | None => 1 end /\
  filter is_get tr = repeat (EvGet url) (length (filter is_get tr)).
Proof.
  unfold fetch_url. cbn [seq MAX_RETRIES fetch_attempts].
  destruct (session_get net url) as [[r1|] n1]; [cbn; auto|].
  destruct (session_get n1 url) as [[r2|] n2]; [cbn; auto|].
  destruct (session_get n2 url) as [[r3|] n3]; cbn; auto.
Qed.

(** The requests and pauses of a call of [fetch_url]. *)
Lemma fetch_url_shape (net : Net) (url : string) :
  exists k,
    1 <= k <= MAX_RETRIES /\
    filter is_get (snd (fetch_url session_get net url)) = repeat (EvGet url) k /\
    filter is_courtesy (snd (fetch_url session_get net url)) = [].
Proof.
  unfold fetch_url, MAX_RETRIES. cbn [seq fetch_attempts].
  destruct (session_get net url) as [[r1|] n1];
    [exists 1; cbn; repeat split; auto; lia|].
  destruct (session_get n1 url) as [[r2|] n2];
    [exists 2; cbn; repeat split; auto; lia|].
  destruct (session_get n2 url) as [[r3|] n3];
    exists 3; cbn; repeat split; auto; lia.
Qed.

Lemma fetch_url_first (net : Net) (url : string) (resp : Response) :
  fst (session_get net url) = Some resp ->
  fst (fst (fetch_url session_get net url)) = Some resp.
Proof.
  unfold fetch_url. cbn [seq MAX_RETRIES fetch_attempts].
  destruct (session_get net url) as [[r1|] n1]; cbn; [auto | discriminate].
Qed.

End FetchMore.

(** ** find_next_page *)

Section LocatorMore.

Variable urljoin : string -> string -> string.

Lemma matches_is_tag (name key value : string) (n : node) :
  Bs4.matches name key value n = true -> Bs4.is_tag name n = true.
Proof.
  destruct n as [nm attrs cs| |]; cbn; [|discriminate..].
  intros H. now apply andb_prop in H as [H _].
Qed.

Lemma link_href_none (l : list node) (f : node -> bool) :
  (forall a, In a l -> f a = true -> has_href a = false) ->
  link_href (List.find f l) = None.
Proof.
  intros H. destruct (List.find f l) as [a|] eqn:E; [|reflexivity].
  apply find_some in E as [Hin Hf]. cbn [link_href].
  specialize (H a Hin Hf). unfold has_href in H.
  now destruct (href_of a).
Qed.

(** X4. A page none of whose links has a non-empty target, and so a page
    without links, has no next page: [find_next_page] returns [None]
    whatever the markers and texts of the links are. *)
Theorem find_next_page_no_target (soup : node) (base_url : string) :
  (forall a, In a (Bs4.descendants soup) ->
             Bs4.is_tag "a" a = true -> has_href a = false) ->
  find_next_page urljoin soup base_url = None.
Proof.
  intros H. rewrite find_next_page_target. unfold next_target, Bs4.find_by.
  rewrite !link_href_none
    by (intros a Hin Hm; apply H; [exact Hin | eapply matches_is_tag; eauto]).
  unfold Spec.text_link_target.
  destruct (List.find _ (Bs4.descendants soup)) as [a|] eqn:E; [|reflexivity].
  apply find_some in E as [Hin Hf].
  apply andb_prop in Hf as [Hf Hh]. apply andb_prop in Hf as [Ht _].
  rewrite (H a Hin Ht) in Hh. discriminate.
Qed.

End LocatorMore.

(** ** scrape_recipes *)

Section DriverMore.

Variable Net : Type.
Variable Response : Type.
Variable session_get : Net -> string -> option Response * Net.
Variable BeautifulSoup : Response -> node.
Variable urljoin : string -> string -> string.
Context {ops : TagOps node}.

Lemma map_EvLog_quiet (logs : list log_msg) :
  filter is_get (map EvLog logs) = [] /\
  filter is_courtesy (map EvLog logs) = [].
Proof. induction logs as [|m l [IH1 IH2]]; cbn; auto. Qed.

(** What one iteration on a truthy location adds to the trace: the page
    record, the trace of [fetch_url], and a rest without requests that
    holds the pause between pages when the loop goes on. *)
Lemma step_page (st : state Net) (url : string) :
  current_url st = Some url -> PyStr.truthy url = true ->
  exists rest,
    trace (state_of (step session_get BeautifulSoup urljoin st))
    = trace st ++ EvLog (LogScrapingPage url)
               :: snd (fetch_url session_get (network st) url) ++ rest /\
    filter is_get rest = [] /\
    fetch_calls rest = [] /\
    filter is_courtesy rest
    = match step session_get BeautifulSoup urljoin st with
      | Running st' => if url_truthy (current_url st') then [EvSleep 1] else []
      | Done _ => []
      end.
Proof.
  intros Hu Ht. unfold step. rewrite Hu, Ht.
  destruct (fetch_url session_get (network st) url) as [[[resp|] net'] ftr];
    cbn [snd].
  2:{ exists []. cbn [state_of trace]. rewrite app_nil_r. auto. }
  set (posts := Bs4.find_all_by (BeautifulSoup resp) "div" "class" "recipe-post").
  pose proof (process_posts_calls posts (all_recipes st)) as Hl.
  destruct (process_posts posts (all_recipes st)) as [recipes logs].
  cbn [snd] in Hl.
  destruct (map_EvLog_quiet logs) as [Hg Hc].
  destruct (find_next_page urljoin (BeautifulSoup resp) url) as [next|].
  1: destruct (PyStr.truthy next && negb (String.eqb next url)) eqn:Ec.
  - apply andb_prop in Ec as [Hn _].
    exists (EvLog (LogFoundPosts (length posts)) :: map EvLog logs ++ [EvSleep 1]).
    cbn [state_of trace current_url url_truthy]. rewrite Hn.
    split; [now rewrite <- !app_assoc|].
    cbn [filter is_get is_courtesy logged_at fetch_calls flat_map app].
    rewrite !filter_app, Hg, Hc.
    change (flat_map _ (map EvLog logs ++ [EvSleep 1]))
      with (fetch_calls (map EvLog logs ++ [EvSleep 1])).
    rewrite fetch_calls_app, Hl. auto.
  - exists (EvLog (LogFoundPosts (length posts)) :: map EvLog logs).
    cbn [state_of trace current_url url_truthy].
    split; [now rewrite <- !app_assoc|].
    cbn [filter is_get is_courtesy fetch_calls flat_map app].
    change (flat_map _ (map EvLog logs)) with (fetch_calls (map EvLog logs)).
    rewrite Hg, Hc, Hl. auto.
  - exists (EvLog (LogFoundPosts (length posts)) :: map EvLog logs).
    cbn [state_of trace current_url url_truthy].
    split; [now rewrite <- !app_assoc|].
    cbn [filter is_get is_courtesy fetch_calls flat_map app].
    change (flat_map _ (map EvLog logs)) with (fetch_calls (map EvLog logs)).
    rewrite Hg, Hc, Hl. auto.
Qed.

Lemma fetch_calls_page (u : string) (tr : list event) :
  fetch_calls (EvLog (LogScrapingPage u) :: tr) = u :: fetch_calls tr.
Proof. reflexivity. Qed.

Lemma step_extends (st : state Net) :
  exists rs tr,
    all_recipes (state_of (step session_get BeautifulSoup urljoin st))
    = all_recipes st ++ rs /\
    trace (state_of (step session_get BeautifulSoup urljoin st)) = trace st ++ tr.
Proof.
  destruct (url_truthy (current_url st)) eqn:Et.
  2:{ rewrite step_not_running by exact Et. exists [], [].
      cbn [state_of]. now rewrite !app_nil_r. }
  unfold url_truthy in Et.
  destruct (current_url st) as [url|] eqn:Hu; [|discriminate].
  destruct (step_page st Hu Et) as (rest & Htr & _).
  destruct (fetch_url session_get (network st) url) as [[[resp|] net'] ftr] eqn:Hf.
  - destruct (step_fetched session_get BeautifulSoup urljoin st Hu Et Hf) as (st' & Hs & Hr & _).
    rewrite Hs in *. cbn [state_of] in *. eauto.
  - assert (Hnone : fst (fst (fetch_url session_get (network st) url)) = None)
      by now rewrite Hf.
    destruct (step_fetch_failed session_get BeautifulSoup urljoin st Hu Et Hnone)
      as (st' & Hs & Hr & _).
    rewrite Hs in *. cbn [state_of] in *. exists []. rewrite app_nil_r. eauto.
Qed.

(** X5. The result list and the trace only grow: in every state the loop
    reaches, the records and the events of the state it started from are
    still there, in front and in order. *)
Theorem run_append_only (n : nat) (st : state Net) :
  exists rs tr,
    all_recipes (state_of (run session_get BeautifulSoup urljoin n st))
    = all_recipes st ++ rs /\
    trace (state_of (run session_get BeautifulSoup urljoin n st)) = trace st ++ tr.
Proof.
  revert st. induction n as [|n IH]; intros st.
  - exists [], []. cbn [run state_of]. now rewrite !app_nil_r.
  - cbn [run]. destruct (step_extends st) as (rs & tr & Hr & Ht).
    destruct (step session_get BeautifulSoup urljoin st) as [st'|st'];
      cbn [state_of] in *.
    + destruct (IH st') as (rs' & tr' & Hr' & Ht').
      exists (rs ++ rs'), (tr ++ tr').
      now rewrite Hr', Ht', Hr, Ht, !app_assoc.
    + eauto.
Qed.

(** X6. An empty start location is falsy: the loop body never runs, nothing
    is requested or logged, and the result is the empty list. *)
Theorem scrape_recipes_empty_start (fuel : nat) (net : Net) :
  0 < fuel ->
  run session_get BeautifulSoup urljoin fuel (init net "") = Done (init net "") /\
  scrape_recipes session_get BeautifulSoup urljoin fuel net "" = Some [].
Proof.
  intros Hf. destruct fuel as [|k]; [lia|].
  unfold scrape_recipes. cbn [run].
  rewrite step_not_running by reflexivity. now split.
Qed.

Lemma step_requests (st : state Net) :
  (length (filter is_get (trace st))
   <= MAX_RETRIES * length (fetch_calls (trace st)) /\
   forall u, In (EvGet u) (trace st) -> In u (fetch_calls (trace st))) ->
  length (filter is_get (trace (state_of (step session_get BeautifulSoup urljoin st))))
  <= MAX_RETRIES
     * length (fetch_calls (trace (state_of (step session_get BeautifulSoup urljoin st)))) /\
  forall u, In (EvGet u) (trace (state_of (step session_get BeautifulSoup urljoin st))) ->
            In u (fetch_calls (trace (state_of (step session_get BeautifulSoup urljoin st)))).
Proof.
  intros [Hlen Hin].
  destruct (url_truthy (current_url st)) eqn:Et.
  2:{ rewrite step_not_running by exact Et. now split. }
  unfold url_truthy in Et.
  destruct (current_url st) as [url|] eqn:Hu; [|discriminate].
  destruct (step_page st Hu Et) as (rest & Htr & Hg & Hc & _).
  destruct (fetch_url_shape session_get (network st) url) as (k & Hk & Hgets & _).
  pose proof (fetch_url_calls session_get (network st) url) as Hfc.
  rewrite Htr.
  assert (Ecalls : fetch_calls (trace st ++ EvLog (LogScrapingPage url)
                      :: snd (fetch_url session_get (network st) url) ++ rest)
                   = fetch_calls (trace st) ++ [url])
    by now rewrite fetch_calls_app, fetch_calls_page, fetch_calls_app, Hfc, Hc.
  rewrite Ecalls. split.
  - rewrite filter_app. cbn [filter is_get]. rewrite filter_app, Hgets, Hg.
    rewrite !length_app, repeat_length. cbn [length].
    unfold MAX_RETRIES in *. lia.
  - intros u Hu'. apply in_or_app.
    apply in_app_or in Hu' as [H | H]; [left; now apply Hin|].
    right. destruct H as [H | H]; [discriminate H|].
    apply in_app_or in H as [H | H].
    + assert (H' : In (EvGet u) (filter is_get
                       (snd (fetch_url session_get (network st) url))))
        by (apply filter_In; now split).
      rewrite Hgets in H'. apply repeat_spec in H'. injection H' as ->. now left.
    + assert (H' : In (EvGet u) (filter is_get rest))
        by (apply filter_In; now split).
      rewrite Hg in H'. destruct H'.
Qed.

(** X7. A run never makes more than [MAX_RETRIES] requests for each page
    it sets out to fetch, and it requests no URL other than the locations
    of these pages. *)
Theorem run_requests_bounded (n : nat) (net : Net) (start_url : string) :
  let tr := trace (state_of (run session_get BeautifulSoup urljoin n
                                 (init net start_url))) in
  length (filter is_get tr) <= MAX_RETRIES * length (fetch_calls tr) /\
  forall u, In (EvGet u) tr -> In u (fetch_calls tr).
Proof.
  cbv zeta.
  enough (G : forall st,
    (length (filter is_get (trace st))
     <= MAX_RETRIES * length (fetch_calls (trace st)) /\
     forall u, In (EvGet u) (trace st) -> In u (fetch_calls (trace st))) ->
    length (filter is_get
              (trace (state_of (run session_get BeautifulSoup urljoin n st))))
    <= MAX_RETRIES
       * length (fetch_calls
                   (trace (state_of (run session_get BeautifulSoup urljoin n st)))) /\
    forall u,
      In (EvGet u) (trace (state_of (run session_get BeautifulSoup urljoin n st))) ->
      In u (fetch_calls
              (trace (state_of (run session_get BeautifulSoup urljoin n st))))).
  { apply G. cbn. split; [lia | intros u []]. }
  induction n as [|n IH]; intros st H; [exact H|].
  cbn [run]. apply step_requests in H.
  destruct (step session_get BeautifulSoup urljoin st) as [st'|st'];
    cbn [state_of] in *; [now apply IH | exact H].
Qed.

Lemma run_courtesy (n : nat) (st : state Net) :
  (if url_truthy (current_url st)
   then length (filter is_courtesy (trace st)) = length (fetch_calls (trace st))
   else length (filter is_courtesy (trace st))
        = pred (length (fetch_calls (trace st)))) ->
  match run session_get BeautifulSoup urljoin n st with
  | Running st' =>
      if url_truthy (current_url st')
      then length (filter is_courtesy (trace st')) = length (fetch_calls (trace st'))
      else length (filter is_courtesy (trace st'))
           = pred (length (fetch_calls (trace st')))
  | Done st' =>
      length (filter is_courtesy (trace st')) = pred (length (fetch_calls (trace st')))
  end.
Proof.
  revert st. induction n as [|n IH]; intros st H; [exact H|].
  cbn [run].
  destruct (url_truthy (current_url st)) eqn:Et.
  2:{ rewrite step_not_running by exact Et. exact H. }
  unfold url_truthy in Et.
  destruct (current_url st) as [url|] eqn:Hu; [|discriminate].
  destruct (step_page st Hu Et) as (rest & Htr & _ & Hc & Hk).
  destruct (fetch_url_shape session_get (network st) url) as (k & _ & _ & Hq).
  pose proof (fetch_url_calls session_get (network st) url) as Hfc.
  assert (Ecalls : length (fetch_calls
                             (trace (state_of (step session_get BeautifulSoup urljoin st))))
                   = S (length (fetch_calls (trace st)))).
  { rewrite Htr, fetch_calls_app, fetch_calls_page, fetch_calls_app, Hfc, Hc.
    rewrite length_app. cbn [length app]. lia. }
  assert (Ek : length (filter is_courtesy
                         (trace (state_of (step session_get BeautifulSoup urljoin st))))
               = length (filter is_courtesy (trace st))
                 + length (filter is_courtesy rest)).
  { rewrite Htr, filter_app. cbn [filter is_courtesy].
    rewrite filter_app, Hq, length_app. reflexivity. }
  rewrite Hk in Ek.
  destruct (step session_get BeautifulSoup urljoin st) as [st'|st'];
    cbn [state_of] in *.
  - apply IH. destruct (url_truthy (current_url st')); cbn [length] in Ek; lia.
  - cbn [length] in Ek. lia.
Qed.

(** X8. When the loop has ended, it has paused between pages once less
    often than it has set out to fetch a page: one pause of one second
    between two consecutive pages, none before the first page and none
    after the last. *)
Theorem run_courtesy_pauses (fuel : nat) (net : Net) (start_url : string)
        (st : state Net) :
  run session_get BeautifulSoup urljoin fuel (init net start_url) = Done st ->
  length (filter is_courtesy (trace st)) = pred (length (fetch_calls (trace st))).
Proof.
  intros Hrun.
  pose proof (run_courtesy fuel (init net start_url)) as H.
  rewrite Hrun in H. apply H.
  cbn. destruct (PyStr.truthy start_url); reflexivity.
Qed.

(** X9. A first page that is fetched and names no next page, or names
    itself, is the whole run: with fuel for two tests of the loop the result
    is the list of the records of its posts, in document order. *)
Theorem scrape_recipes_single_page (fuel : nat) (net : Net) (start_url : string)
        (resp : Response) (net' : Net) (ftr : list event) :
  PyStr.truthy start_url = true ->
  fetch_url session_get net start_url = (Some resp, net', ftr) ->
  next_url urljoin (BeautifulSoup resp) start_url = None ->
  2 <= fuel ->
  scrape_recipes session_get BeautifulSoup urljoin fuel net start_url
  = Some (extracted (Bs4.find_all_by (BeautifulSoup resp) "div" "class" "recipe-post")).
Proof.
  intros Ht Hf Hn Hfuel.
  destruct (@step_fetched _ _ session_get BeautifulSoup urljoin _
              (init net start_url) start_url resp net' ftr eq_refl Ht Hf)
    as (st' & Hs & Hr & _ & Hcur & _).
  rewrite Hn in Hcur.
  destruct fuel as [|[|k]]; try lia.
  unfold scrape_recipes. cbn [run]. rewrite Hs.
  rewrite step_not_running by now rewrite Hcur.
  now rewrite Hr.
Qed.

(** X10. The guard of line 158 compares the next location with the current
    one only.  Two pages that are always served and name each other as the
    next page keep the loop running: no amount of fuel ends the run. *)
Theorem two_page_cycle_never_ends (a b : string) (ra rb : Response) :
  PyStr.truthy a = true -> PyStr.truthy b = true -> a <> b ->
  (forall net, fst (session_get net a) = Some ra) ->
  (forall net, fst (session_get net b) = Some rb) ->
  find_next_page urljoin (BeautifulSoup ra) a = Some b ->
  find_next_page urljoin (BeautifulSoup rb) b = Some a ->
  forall fuel net,
    scrape_recipes session_get BeautifulSoup urljoin fuel net a = None.
Proof.
  intros Ta Tb Hab Ha Hb Na Nb fuel net.
  assert (Sa : forall st, current_url st = Some a ->
                 exists st', step session_get BeautifulSoup urljoin st = Running st' /\
                             current_url st' = Some b).
  { intros st Hu.
    pose proof (fetch_url_first session_get (network st) a (Ha (network st))) as Hf.
    destruct (fetch_url session_get (network st) a) as [[r n'] t] eqn:E.
    cbn [fst] in Hf. subst r.
    destruct (step_fetched session_get BeautifulSoup urljoin st Hu Ta E) as (st' & Hs & _ & _ & Hc & _).
    exists st'. split; [exact Hs|]. rewrite Hc. unfold next_url. rewrite Na, Tb.
    apply not_eq_sym in Hab. apply String.eqb_neq in Hab. now rewrite Hab. }
  assert (Sb : forall st, current_url st = Some b ->
                 exists st', step session_get BeautifulSoup urljoin st = Running st' /\
                             current_url st' = Some a).
  { intros st Hu.
    pose proof (fetch_url_first session_get (network st) b (Hb (network st))) as Hf.
    destruct (fetch_url session_get (network st) b) as [[r n'] t] eqn:E.
    cbn [fst] in Hf. subst r.
    destruct (step_fetched session_get BeautifulSoup urljoin st Hu Tb E) as (st' & Hs & _ & _ & Hc & _).
    exists st'. split; [exact Hs|]. rewrite Hc. unfold next_url. rewrite Nb, Ta.
    apply String.eqb_neq in Hab. now rewrite Hab. }
  assert (G : forall n st,
             current_url st = Some a \/ current_url st = Some b ->
             exists st', run session_get BeautifulSoup urljoin n st = Running st').
  { induction n as [|n IH]; intros st H; [now exists st|].
    cbn [run]. destruct H as [H | H].
    - destruct (Sa st H) as (st' & -> & Hc). apply IH. now right.
    - destruct (Sb st H) as (st' & -> & Hc). apply IH. now left. }
  unfold scrape_recipes.
  destruct (G fuel (init net a)) as (st' & ->); [now left | reflexivity].
Qed.

End DriverMore.

(** ** Further concrete runs *)

Module MoreRuns.

Import Examples MoreExamples.

(** [extract_recipe_logs] on a complete post and on one without a date:
    neither writes anything at the default level. *)
Lemma extract_recipe_logs_run :
  snd (extract_recipe post_ipa) = [] /\
  emitted INFO (snd (extract_recipe post_no_date)) = [].
Proof.
  split.
  - destruct (extract_recipe_logs post_ipa) as [H _].
    eapply H. vm_compute. reflexivity.
  - destruct (extract_recipe_logs post_no_date) as [_ H].
    destruct (H eq_refl) as [(_ & H' & _) | (e & He & _)];
      [exact H' | vm_compute in He; discriminate He].
Defined.

(** [find_next_page_no_target] on a page whose only link has an empty
    target, although the link carries the [rel] marker and the text. *)
Lemma find_next_page_no_target_run :
  find_next_page Url.urljoin_ref page_dead_link base = None.
Proof.
  apply find_next_page_no_target. intros a Ha Ht. vm_compute in Ha.
  repeat (destruct Ha as [<- | Ha];
          [first [ vm_compute; reflexivity | vm_compute in Ht; discriminate Ht ]|]).
  contradiction.
Defined.

(** [scrape_recipes_empty_start] on the site of two pages. *)
Lemma scrape_recipes_empty_start_run :
  run two_pages (fun r => r) Url.urljoin_ref 3 (init 0 "") = Done (init 0 "") /\
  scrape_recipes two_pages (fun r => r) Url.urljoin_ref 3 0 "" = Some [].
Proof.
  apply (@scrape_recipes_empty_start nat node two_pages (fun r => r)
           Url.urljoin_ref bs4_ops 3 0).
  lia.
Defined.

(** [run_requests_bounded] on a site that serves one page and goes down:
    four requests for two pages. *)
Lemma run_requests_bounded_run :
  length (filter is_get
            (trace (state_of (run one_then_down (fun r => r) Url.urljoin_ref 4
                                  (init 0 base)))))
  <= MAX_RETRIES * 2 /\
  In "http://brew.example/page2.html"
     (fetch_calls
        (trace (state_of (run one_then_down (fun r => r) Url.urljoin_ref 4
                              (init 0 base))))).
Proof.
  destruct (@run_requests_bounded nat node one_then_down (fun r => r)
              Url.urljoin_ref bs4_ops 4 0 base) as [H1 H2].
  split.
  - exact H1.
  - apply H2. vm_compute. auto 20.
Defined.

(** [run_courtesy_pauses] on the site of two pages: one pause. *)
Lemma run_courtesy_pauses_run :
  length (filter is_courtesy
            (trace (state_of (run two_pages (fun r => r) Url.urljoin_ref 4
                                  (init 0 base)))))
  = pred (length (fetch_calls
                    (trace (state_of (run two_pages (fun r => r) Url.urljoin_ref 4
                                          (init 0 base)))))) /\
  length (fetch_calls
            (trace (state_of (run two_pages (fun r => r) Url.urljoin_ref 4
                                  (init 0 base))))) = 2.
Proof.
  split; [|vm_compute; reflexivity].
  apply (@run_courtesy_pauses nat node two_pages (fun r => r) Url.urljoin_ref
           bs4_ops 4 0 base).
  vm_compute. reflexivity.
Defined.

(** [scrape_recipes_single_page] on a site of one page without links. *)
Lemma scrape_recipes_single_page_run :
  scrape_recipes (flaky 0 page_last) (fun r => r) Url.urljoin_ref 2 0 base
  = Some (extracted (Bs4.find_all_by page_last "div" "class" "recipe-post")).
Proof.
  apply (@scrape_recipes_single_page nat node (flaky 0 page_last) (fun r => r)
           Url.urljoin_ref bs4_ops 2 0 base page_last 1
           (snd (fetch_url (flaky 0 page_last) 0 base)));
    first [ vm_compute; reflexivity | lia ].
Defined.

(** [two_page_cycle_never_ends] on two pages that name each other. *)
Lemma two_page_cycle_never_ends_run :
  scrape_recipes cycle_site (fun r => r) Url.urljoin_ref 50 0 url_a = None.
Proof.
  apply (@two_page_cycle_never_ends nat node cycle_site (fun r => r)
           Url.urljoin_ref bs4_ops url_a url_b page_a page_b);
    try (vm_compute; reflexivity); try (intros net; reflexivity).
  vm_compute. discriminate.
Defined.

End MoreRuns.

(** ** extract_recipe on the tag objects of a document *)

Module StoreFacts.

Import Store.

Lemma node_forall_ind (P : node -> Prop) :
  (forall nm attrs cs, Forall P cs -> P (Tag nm attrs cs)) ->
  (forall s, P (NavigableString s)) ->
  (forall s, P (Comment s)) ->
  forall n, P n.
Proof.
  intros Ht Hs Hc. fix IH 1. intros [nm attrs cs|s|s]; [|apply Hs|apply Hc].
  apply Ht. revert cs. fix IHl 1.
  intros [|c l]; constructor; [apply IH | apply IHl].
Qed.

Lemma descendants_tag (nm : string) (attrs : list (string * string)) (cs : list node) :
  Bs4.descendants (Tag nm attrs cs) = descendants_list cs.
Proof. reflexivity. Qed.

Lemma paths_tag (nm : string) (attrs : list (string * string)) (cs : list node) :
  paths (Tag nm attrs cs) = paths_list 0 cs.
Proof. reflexivity. Qed.

Lemma find_map_snd (A B : Type) (f : B -> bool) (l : list (A * B)) :
  List.find f (map snd l) = option_map snd (List.find (fun x => f (snd x)) l).
Proof.
  induction l as [|[a b] l IH]; cbn; [reflexivity|].
  destruct (f b); [reflexivity | exact IH].
Qed.

Lemma paths_list_snd (i : nat) (l : list node) :
  Forall (fun n => map snd (paths n) = Bs4.descendants n) l ->
  map snd (paths_list i l) = descendants_list l.
Proof.
  intros H. revert i. induction H as [|c l Hc _ IH]; intros i; [reflexivity|].
  cbn [paths_list descendants_list map snd]. f_equal.
  rewrite map_app, map_map, IH, <- Hc. f_equal.
Qed.

(** The nodes of [paths] are the descendants, in the same order. *)
Lemma paths_snd (n : node) : map snd (paths n) = Bs4.descendants n.
Proof.
  induction n as [nm attrs cs IH|s|s] using node_forall_ind; try reflexivity.
  rewrite paths_tag, descendants_tag. now apply paths_list_snd.
Qed.

Lemma paths_list_subtree (nm : string) (attrs : list (string * string))
      (pre l : list node) :
  Forall (fun n => forall q m, In (q, m) (paths n) -> subtree n q = Some m) l ->
  forall q m, In (q, m) (paths_list (length pre) l) ->
              subtree (Tag nm attrs (pre ++ l)) q = Some m.
Proof.
  intros H. revert pre. induction H as [|c l Hc _ IH]; intros pre q m Hin;
    [destruct Hin|].
  assert (Hnth : nth_error (pre ++ c :: l) (length pre) = Some c).
  { rewrite nth_error_app2 by apply le_n. now rewrite Nat.sub_diag. }
  cbn [paths_list] in Hin. destruct Hin as [E | Hin].
  - injection E as <- <-. cbn [subtree]. now rewrite Hnth.
  - apply in_app_or in Hin as [Hin | Hin].
    + apply in_map_iff in Hin as ([q' m'] & E & Hin).
      unfold push in E. cbn [fst snd] in E. injection E as <- <-.
      cbn [subtree]. rewrite Hnth. now apply Hc.
    + specialize (IH (pre ++ [c]) q m).
      rewrite length_app in IH. cbn [length] in IH.
      rewrite Nat.add_1_r, <- app_assoc in IH. now apply IH.
Qed.

(** A position of [paths] leads to its node. *)
Lemma paths_subtree (n : node) :
  forall q m, In (q, m) (paths n) -> subtree n q = Some m.
Proof.
  induction n as [nm attrs cs IH|s|s] using node_forall_ind;
    [|intros q m []..].
  intros q m Hin. rewrite paths_tag in Hin.
  now apply (@paths_list_subtree nm attrs [] cs IH q m).
Qed.

Lemma subtree_app (doc : node) (p q : ref) :
  subtree doc (p ++ q)
  = match subtree doc p with
    | Some n => subtree n q
    | None => None
    end.
Proof.
  revert doc. induction p as [|i p IH]; intros doc; [reflexivity|].
  cbn [app subtree]. destruct doc as [nm attrs cs|s|s]; try reflexivity.
  destruct (nth_error cs i); [apply IH | reflexivity].
Qed.

(** [find_path] returns the position of the node that [find] returns. *)
Lemma find_path_spec (n : node) (name key value : string) :
  match find_path n name key value with
  | Some q => exists m, Bs4.find_by n name key value = Some m /\ subtree n q = Some m
  | None => Bs4.find_by n name key value = None
  end.
Proof.
  unfold find_path, Bs4.find_by. rewrite <- paths_snd, find_map_snd.
  destruct (List.find _ (paths n)) as [[q m]|] eqn:E; cbn [option_map fst snd];
    [|reflexivity].
  exists m. split; [reflexivity|].
  apply find_some in E as [Hin _]. now apply paths_subtree.
Qed.

Lemma find_s_spec (doc : node) (p : ref) (n : node) (name cls : string) :
  subtree doc p = Some n ->
  exists r,
    find_s p name cls doc = (Ret r, doc) /\
    match r with
    | Some t => exists m, Bs4.find_by n name "class" cls = Some m /\
                          subtree doc t = Some m
    | None => Bs4.find_by n name "class" cls = None
    end.
Proof.
  intros H. cbn [find_s bs4_store]. unfold deref. rewrite H. cbn [bind].
  eexists. split; [reflexivity|].
  pose proof (find_path_spec n name "class" cls) as Hp.
  destruct (find_path n name "class" cls) as [q|]; cbn [option_map]; [|exact Hp].
  destruct Hp as (m & Hf & Hs). exists m. split; [exact Hf|].
  now rewrite subtree_app, H.
Qed.

Lemma get_text_s_spec (doc : node) (t : ref) (m : node) :
  subtree doc t = Some m ->
  get_text_s t doc = (Ret (Bs4.get_text_strip m), doc).
Proof. intros H. cbn [get_text_s bs4_store]. unfold deref. now rewrite H. Qed.

Lemma stripped_strings_s_spec (doc : node) (t : ref) (m : node) :
  subtree doc t = Some m ->
  stripped_strings_s t doc = (Ret (Bs4.stripped_strings m), doc).
Proof. intros H. cbn [stripped_strings_s bs4_store]. unfold deref. now rewrite H. Qed.

Local Ltac found r S F T :=
  let m := fresh "m" in
  destruct r as [?|];
  [destruct S as (m & F & T); try rewrite F | try rewrite S].

(** On a reference to a node of the document, extraction through the
    document is [extract_recipe] on that node, and the document is left as
    it is. *)
Lemma extract_recipe_s_refines (doc : node) (p : ref) (n : node) :
  subtree doc p = Some n ->
  extract_recipe_s p doc = (extract_recipe n, doc).
Proof.
  intros H. rewrite ExtractBs4.extract_recipe_unfold.
  destruct (@find_s_spec doc p n "div" "recipe-title" H) as (r1 & E1 & S1).
  destruct (@find_s_spec doc p n "div" "recipe-author" H) as (r2 & E2 & S2).
  destruct (@find_s_spec doc p n "div" "recipe-date" H) as (r3 & E3 & S3).
  destruct (@find_s_spec doc p n "div" "recipe-ingredients" H) as (r4 & E4 & S4).
  destruct (@find_s_spec doc p n "div" "recipe-instructions" H) as (r5 & E5 & S5).
  unfold extract_recipe_s, extract_recipe_try_s, bind_s.
  rewrite E1, E2, E3, E4, E5.
  found r1 S1 F1 T1; found r2 S2 F2 T2; found r3 S3 F3 T3;
    found r4 S4 F4 T4; found r5 S5 F5 T5; try reflexivity.
  rewrite (@get_text_s_spec doc _ _ T1), (@get_text_s_spec doc _ _ T2), (@get_text_s_spec doc _ _ T3).
  rewrite (@stripped_strings_s_spec doc _ _ T4), (@stripped_strings_s_spec doc _ _ T5).
  unfold ret_s. now rewrite !append_all_id.
Qed.

Lemma preserves_bind (S A B : Type) (m : M S A) (k : A -> M S B) :
  preserves m -> (forall a, preserves (k a)) -> preserves (bind_s m k).
Proof.
  intros Hm Hk s. unfold bind_s. specialize (Hm s).
  destruct (m s) as [[a|e] s']; cbn [snd] in Hm; subst s';
    [apply Hk | reflexivity].
Qed.

(** With operations that leave the state as it is, [extract_recipe] leaves
    it as it is: the function itself changes nothing, whether it returns a
    record, misses a field or catches an exception. *)
Lemma extract_recipe_s_state (S T : Type) (ops : TagOpsS S T) :
  read_only ops ->
  forall post s, snd (extract_recipe_s post s) = s.
Proof.
  intros (Hf & Hg & Hs) post s.
  assert (Hp : preserves (extract_recipe_try_s post)).
  { unfold extract_recipe_try_s.
    repeat (apply preserves_bind; [intros s0; apply Hf | intros ?]).
    repeat match goal with
           | |- preserves (match ?o with Some _ => _ | None => _ end) => destruct o
           end;
      try (intros s0; reflexivity).
    repeat (apply preserves_bind;
            [intros s0; first [apply Hg | apply Hs] | intros ?]).
    intros s0. reflexivity. }
  unfold extract_recipe_s. specialize (Hp s).
  destruct (extract_recipe_try_s post s) as [[r|e] s']; exact Hp.
Qed.

Lemma bs4_store_read_only : read_only bs4_store.
Proof. repeat split. Qed.

(** C9. Extraction is repeatable.  [extract_recipe] reads the document
    through the post and changes nothing in it: after a first run the
    document is the one before, so a second run on the same post, made
    after the first, returns the same record or the same [None], with the
    same log records.  On a post that is a node of the document both runs
    return what [extract_recipe] returns on that node. *)
Theorem extract_recipe_repeatable (doc : node) (post : ref) :
  let '(first, doc1) := extract_recipe_s post doc in
  let '(second, doc2) := extract_recipe_s post doc1 in
  first = second /\ doc1 = doc /\ doc2 = doc /\
  (forall n, subtree doc post = Some n -> first = extract_recipe n).
Proof.
  pose proof (@extract_recipe_s_state _ _ _ bs4_store_read_only post doc) as H1.
  destruct (extract_recipe_s post doc) as [first doc1] eqn:E1.
  cbn [snd] in H1. subst doc1. rewrite E1. repeat split.
  intros n Hn. rewrite (@extract_recipe_s_refines doc post n Hn) in E1.
  now injection E1.
Qed.

(** [extract_recipe_repeatable] on the first post of [page_one]. *)
Lemma extract_recipe_repeatable_run :
  fst (extract_recipe_s [0] Examples.page_one) = extract_recipe Examples.post_ipa /\
  snd (extract_recipe_s [0] Examples.page_one) = Examples.page_one /\
  fst (extract_recipe_s [0] (snd (extract_recipe_s [0] Examples.page_one)))
  = extract_recipe Examples.post_ipa.
Proof.
  pose proof (extract_recipe_repeatable Examples.page_one [0]) as H.
  cbv in H. destruct H as (Hfg & Hd & Hd2 & Hn).
  split; [exact (Hn Examples.post_ipa eq_refl)|]. split; [exact Hd|].
  exact (Hn Examples.post_ipa eq_refl).
Defined.

End StoreFacts.
